(** * Helios-Tracker: the derived-metrics pipeline

    A shallow embedding of the scoring engines of Helios-Tracker
    (strain, recovery, sleep score, VO2 max, sleep need), of the daily
    heart-rate indexer and of the orchestrator [computeAllScores],
    followed by the properties the specification states about them.
    The later modules add the helpers around them (rolling average,
    downsampling, strain coach, the sleep-need block of the statistics
    hook, the scoring part of the loader), the orchestrator as a
    computation on a machine whose state it may consult, and further
    properties read off the code.

    Modelling conventions.
    - A JavaScript [number] that holds a measurement or a score is a
      rational [Q] with exact arithmetic: every finite double is a
      rational, and the engines only add, subtract, multiply, divide,
      compare and round.  Loop counters that start at 0 and are only
      incremented are [nat].
    - Three results are sums and quotients whose rounding in double
      precision is observable: the incrementally updated [avg] of a
      daily summary, the zone percentages, and the running sum of the
      rolling average.  They are computed in IEEE binary64 with the
      primitive floats ([JS.to_double], [JS.of_count]).
    - [Math.exp] is the one transcendental call of the pipeline (the
      strain saturation curve).  It is evaluated over the reals [R] and
      the rounded result is brought back to [Q].
    - [Infinity], used by the indexer as the "no nocturnal sample yet"
      value of [resting], is a constructor of its own ([JS.xnum]).
    - A JavaScript [Map] keyed by a date string is a [gmap string _].
      Its insertion order is not represented: the pipeline iterates a
      map only to fill another map, to sort its keys, or to take a
      maximum and a median of its values.
    - Division by zero ([Infinity] or [NaN] in JavaScript, 0 in [Q])
      is not reached by the statements below: the engines divide by
      constants, by a count plus one, behind a guard, or by a maximum
      heart rate that is assumed positive.
    - The two host facilities whose result depends on the machine
      (the local clock reading of [new Date(iso)] and
      [String.prototype.localeCompare]) are section variables.  The
      clock is a total function to [Q]: an [Invalid Date], whose
      reading is [NaN], is outside the model, and a statement that
      depends on the value of a reading assumes an hour from 0 to 23
      and a minute from 0 to 59. *)

From Stdlib Require Import Reals Lra QArith Qround Qabs Lqa Sorted.
From Stdlib Require PrimFloat Uint63.
From stdpp Require Import gmap strings.

(** ** JavaScript numeric built-ins *)

Module JS.

Open Scope Q_scope.

(** [a < b], [a <= b], [a >= b] on numbers, as booleans. *)
Definition ltb (a b : Q) : bool := negb (Qle_bool b a).
Definition leb (a b : Q) : bool := Qle_bool a b.
Definition geb (a b : Q) : bool := Qle_bool b a.
Definition gtb (a b : Q) : bool := negb (Qle_bool a b).

(** [Math.min], [Math.max] for two arguments. *)
Definition Math_min (a b : Q) : Q := if Qle_bool a b then a else b.
Definition Math_max (a b : Q) : Q := if Qle_bool a b then b else a.

(** [Math.abs]. *)
Definition Math_abs (a : Q) : Q := Qabs a.

(** [Math.round]: the nearest integer, ties towards +infinity. *)
Definition Math_round (x : Q) : Q := inject_Z (Qfloor (x + (1 # 2))).

(** A counter read as a number. *)
Definition num (n : nat) : Q := inject_Z (Z.of_nat n).

(** [Math.round] over the reals, for the one expression that goes
    through [Math.exp]. *)
Definition Rround (x : R) : Z := Int_part (x + / 2)%R.

(** A number that may be [Infinity]. *)
Inductive xnum : Type :=
  | Fin (q : Q)
  | Infinity.

(** [Math.min(x, q)] where [q] is finite. *)
Definition xmin (x : xnum) (q : Q) : xnum :=
  match x with
  | Fin p => Fin (Math_min p q)
  | Infinity => Fin q
  end.

(** [x === Infinity]. *)
Definition is_Infinity (x : xnum) : bool :=
  match x with
  | Fin _ => false
  | Infinity => true
  end.

(** String comparison with [<] and [>=] (code-unit order). *)
Definition str_ltb (a b : string) : bool := String.ltb a b.
Definition str_geb (a b : string) : bool := String.leb b a.

(** A counter read as a double: exact below 2^53. *)
Definition of_count (n : nat) : PrimFloat.float :=
  PrimFloat.of_uint63 (Uint63.of_Z (Z.of_nat n)).

(** The double nearest to a rational measurement (the quotient of two
    whole numbers below 2^53, correctly rounded): the value a
    [number] field holds for it. *)
Definition to_double (q : Q) : PrimFloat.float :=
  let den := PrimFloat.of_uint63 (Uint63.of_Z (Zpos (Qden q))) in
  if (Qnum q <? 0)%Z then
    PrimFloat.opp
      (PrimFloat.div (PrimFloat.of_uint63 (Uint63.of_Z (- Qnum q))) den)
  else PrimFloat.div (PrimFloat.of_uint63 (Uint63.of_Z (Qnum q))) den.

End JS.

(** ** Data types (data-types.ts) *)

(** One automatic heart-rate reading; [HeartRateRecord] is its alias. *)
Module HeartRateAuto.
Record t : Type := mk {
  date : string;       (* "YYYY-MM-DD" *)
  time : string;       (* "HH:mm" *)
  heartRate : Q;
}.
End HeartRateAuto.
Abbreviation HeartRateRecord := HeartRateAuto.t.

(** One night of sleep.  The [naps] field of the source is read by no
  engine and is left out. *)
Module Sleep.
Record t : Type := mk {
  date : string;
  deepSleepTime : Q;
  shallowSleepTime : Q;
  wakeTime : Q;
  start : string;
  stop : string;
  REMTime : Q;
}.
End Sleep.

(** Per-day heart-rate summary built by the indexer. *)
Module DailyHRSummary.
Record t : Type := mk {
  date : string;
  min : Q;
  max : Q;
  avg : PrimFloat.float;
  resting : JS.xnum;
  count : nat;
}.
End DailyHRSummary.

(** ** Heart-rate zones (data-transforms.ts) *)

Module DataTransforms.
Import JS.
Open Scope Q_scope.

Record HRZone : Type := mkZone {
  minutes : nat;
  percent : PrimFloat.float;
}.

Record HRZones : Type := mkZones {
  rest : HRZone;
  fatBurn : HRZone;
  cardio : HRZone;
  peak : HRZone;
}.

(** The four loop counters of [computeHRZones]. *)
Record counters : Type := mkCounters {
  n_rest : nat;
  n_fatBurn : nat;
  n_cardio : nat;
  n_peak : nat;
}.

(** The body of the [for (const rec of records)] loop. *)
Definition zone_step (maxHR : Q) (c : counters) (rec : HeartRateRecord)
  : counters :=
  let pct := HeartRateAuto.heartRate rec / maxHR in
  if geb pct 0.85 then
    mkCounters (n_rest c) (n_fatBurn c) (n_cardio c) (S (n_peak c))
  else if geb pct 0.7 then
    mkCounters (n_rest c) (n_fatBurn c) (S (n_cardio c)) (n_peak c)
  else if geb pct 0.5 then
    mkCounters (n_rest c) (S (n_fatBurn c)) (n_cardio c) (n_peak c)
  else
    mkCounters (S (n_rest c)) (n_fatBurn c) (n_cardio c) (n_peak c).

Definition computeHRZones (records : list HeartRateRecord) (maxHR : Q)
  : HRZones :=
  let c := fold_left (zone_step maxHR) records (mkCounters 0 0 0 0) in
  (* records.length || 1 *)
  let total := match length records with O => 1%nat | n => n end in
  let zone (k : nat) :=
    mkZone k (PrimFloat.mul (PrimFloat.div (of_count k) (of_count total))
                            (of_count 100)) in
  mkZones (zone (n_rest c)) (zone (n_fatBurn c))
          (zone (n_cardio c)) (zone (n_peak c)).

Definition counters_total (c : counters) : nat :=
  (n_rest c + n_fatBurn c + n_cardio c + n_peak c)%nat.

End DataTransforms.

(** ** Daily strain (strain.ts) *)

Module ComputedDailyStrain.
Inductive level : Type :=
  | level_rest | level_light | level_moderate | level_high | level_all_out.

Record zone_minutes : Type := mkZoneMinutes {
  rest : nat;
  fatBurn : nat;
  cardio : nat;
  peak : nat;
}.

Record t : Type := mk {
  date : string;
  rawTRIMP : nat;
  strain : Q;
  zoneMinutes : zone_minutes;
  lvl : level;
}.
End ComputedDailyStrain.

Module Strain.
Import JS.
Open Scope Q_scope.

Definition getStrainLevel (strain : Q) : ComputedDailyStrain.level :=
  if ltb strain 2 then ComputedDailyStrain.level_rest
  else if ltb strain 7 then ComputedDailyStrain.level_light
  else if ltb strain 14 then ComputedDailyStrain.level_moderate
  else if ltb strain 18 then ComputedDailyStrain.level_high
  else ComputedDailyStrain.level_all_out.

(** [Math.round(21 * (1 - Math.exp(-rawTRIMP / 100)) * 10)]: the
    strain in tenths, an integer. *)
Definition strain_tenths (rawTRIMP : nat) : Z :=
  Rround (21 * (1 - exp (- IZR (Z.of_nat rawTRIMP) / 100)) * 10)%R.

Definition computeDailyStrain
  (records : list HeartRateRecord) (maxHR : Q) : ComputedDailyStrain.t :=
  let zones := DataTransforms.computeHRZones records maxHR in
  let fatBurn := DataTransforms.minutes (DataTransforms.fatBurn zones) in
  let cardio := DataTransforms.minutes (DataTransforms.cardio zones) in
  let peak := DataTransforms.minutes (DataTransforms.peak zones) in
  let rawTRIMP := (fatBurn * 1 + cardio * 2 + peak * 3)%nat in
  let strain := inject_Z (strain_tenths rawTRIMP) / 10 in
  let level := getStrainLevel strain in
  ComputedDailyStrain.mk
    (match records with
     | rec :: _ => HeartRateAuto.date rec
     | [] => EmptyString
     end)
    rawTRIMP
    strain
    (ComputedDailyStrain.mkZoneMinutes
       (DataTransforms.minutes (DataTransforms.rest zones))
       fatBurn cardio peak)
    level.

End Strain.

(** ** Array built-ins *)

Module JSArray.
Import JS.
Open Scope Q_scope.

(** [arr.sort(cmp)]: a stable sort; [a] is placed after [b] exactly when
    [cmp(a, b) > 0]. *)
Fixpoint insert_by {A : Type} (cmp : A -> A -> Q) (x : A) (l : list A)
  : list A :=
  match l with
  | [] => [x]
  | y :: l' => if gtb (cmp x y) 0 then y :: insert_by cmp x l' else x :: l
  end.

Definition sort_by {A : Type} (cmp : A -> A -> Q) (l : list A) : list A :=
  foldr (insert_by cmp) [] l.

(** [(a, b) => a - b]. *)
Definition numeric_cmp (a b : Q) : Q := a - b.

(** [arr.sort()] on strings: code-unit order. *)
Definition default_cmp (a b : string) : Q :=
  match String.compare a b with
  | Lt => -1
  | Eq => 0
  | Gt => 1
  end.

(** [arr.slice(from, to)] for [0 <= from]. *)
Definition slice {A : Type} (from to : nat) (l : list A) : list A :=
  take (to - from) (drop from l).

(** [arr[i]] for a numeric array, read inside its bounds. *)
Definition at_index (l : list Q) (i : nat) : Q := nth i l 0.

End JSArray.

(** ** Recovery (recovery.ts) *)

Module ComputedRecoveryScore.
Inductive level : Type := green | yellow | red.

Record t : Type := mk {
  date : string;
  score : Q;
  rhrBpm : Q;
  rhrBaseline : Q;
  sleepComponent : Q;
  strainComponent : Q;
  lvl : level;
}.
End ComputedRecoveryScore.

Module Recovery.
Import JS JSArray.
Open Scope Q_scope.

(** The median of a sorted numeric array. *)
Definition median (sorted : list Q) : Q :=
  let n := length sorted in
  if (n =? 0)%nat then 0
  else
    let mid := (n / 2)%nat in
    if (n mod 2 =? 1)%nat then at_index sorted mid
    else (at_index sorted (mid - 1) + at_index sorted mid) / 2.

(** [r.time >= '02:00' && r.time < '05:00'] *)
Definition in_night_window (time : string) : bool :=
  str_geb time "02:00" && str_ltb time "05:00".

Definition computeNightlyRestingHR (hrRecords : list HeartRateRecord)
  : option Q :=
  let nightRecords :=
    List.filter (fun r => in_night_window (HeartRateAuto.time r)) hrRecords in
  if (length nightRecords =? 0)%nat then None
  else
    let sorted :=
      sort_by numeric_cmp (map HeartRateAuto.heartRate nightRecords) in
    Some (median sorted).

Definition computeRHRBaseline (nightlyRHRs : list Q) : Q :=
  if (length nightlyRHRs =? 0)%nat then 65
  else median (sort_by numeric_cmp nightlyRHRs).

Definition computeDailyRecovery
  (date : string) (rhrBpm : option Q) (rhrBaseline : Q)
  (sleepNight : option Sleep.t) (priorStrain : option ComputedDailyStrain.t)
  : ComputedRecoveryScore.t :=
  (* RHR component (40 %) *)
  let rhrScore :=
    match rhrBpm with
    | None => 50
    | Some bpm =>
        let deviation := bpm - rhrBaseline in
        Math_max 0 (Math_min 100 (100 - deviation * 5))
    end in
  (* Sleep component (40 %) *)
  let sleepScore :=
    match sleepNight with
    | None => 50
    | Some night =>
        let actualMin :=
          Sleep.deepSleepTime night + Sleep.shallowSleepTime night
          + Sleep.REMTime night in
        Math_min 100 (actualMin / 480 * 100)
    end in
  (* Strain component (20 %) *)
  let strainScore :=
    match priorStrain with
    | None => 75
    | Some prior =>
        Math_max 0 (100 - ComputedDailyStrain.strain prior / 21 * 100)
    end in
  let raw := rhrScore * 0.4 + sleepScore * 0.4 + strainScore * 0.2 in
  let score := Math_max 0 (Math_min 100 (Math_round raw)) in
  let level :=
    if geb score 67 then ComputedRecoveryScore.green
    else if geb score 34 then ComputedRecoveryScore.yellow
    else ComputedRecoveryScore.red in
  ComputedRecoveryScore.mk
    date score
    (match rhrBpm with Some bpm => bpm | None => 0 end)
    rhrBaseline sleepScore strainScore level.

End Recovery.

(** ** Enhanced sleep score (sleep-score.ts) *)

Module ComputedEnhancedSleepScore.
Inductive level : Type := green | yellow | red.

Record t : Type := mk {
  date : string;
  score : Q;
  sufficiency : Q;
  efficiency : Q;
  stageQuality : Q;
  consistency : Q;
  lvl : level;
}.
End ComputedEnhancedSleepScore.

Module SleepScore.
Import JS JSArray.
Open Scope Q_scope.

Section LocalClock.

(** [new Date(iso).getHours()] and [.getMinutes()]: the reading of the
    machine's local clock for an ISO datetime string.  A string that
    [new Date] cannot parse ([Invalid Date], whose readings are [NaN])
    is outside the model. *)
Variable getHours : string -> Q.
Variable getMinutes : string -> Q.

Definition bedtimeHour (isoString : string) : Q :=
  let h := getHours isoString + getMinutes isoString / 60 in
  if leb h 12 then h + 24 else h.

(** The median of a numeric array; 0 for empty input. *)
Definition median (values : list Q) : Q :=
  if (length values =? 0)%nat then 0
  else
    let sorted := sort_by numeric_cmp values in
    let mid := (length sorted / 2)%nat in
    if negb (length sorted mod 2 =? 0)%nat then at_index sorted mid
    else (at_index sorted (mid - 1) + at_index sorted mid) / 2.

Definition scoreSufficiency (night : Sleep.t) : Q :=
  let actualMin :=
    Sleep.deepSleepTime night + Sleep.shallowSleepTime night
    + Sleep.REMTime night in
  Math_min (actualMin / 480 * 100) 100.

Definition scoreEfficiency (night : Sleep.t) : Q :=
  let totalInBed :=
    Sleep.deepSleepTime night + Sleep.shallowSleepTime night
    + Sleep.REMTime night + Sleep.wakeTime night in
  if leb totalInBed 0 then 0
  else (totalInBed - Sleep.wakeTime night) / totalInBed * 100.

Definition scoreStageQuality (night : Sleep.t) : Q :=
  let actualMin :=
    Sleep.deepSleepTime night + Sleep.shallowSleepTime night
    + Sleep.REMTime night in
  if leb actualMin 0 then 0
  else
    let deepPct := Sleep.deepSleepTime night / actualMin in
    let remPct := Sleep.REMTime night / actualMin in
    let lightPct := Sleep.shallowSleepTime night / actualMin in
    let deepDeviation := Math_abs (deepPct - 0.2) / 0.2 in
    let remDeviation := Math_abs (remPct - 0.25) / 0.25 in
    let lightDeviation := Math_abs (lightPct - 0.55) / 0.55 in
    Math_max 0 (100 - (deepDeviation + remDeviation + lightDeviation) * 33.33).

Definition scoreConsistency (night : Sleep.t) (prevNights : list Sleep.t)
  : Q :=
  if (length prevNights <? 3)%nat then 75
  else
    let prevBedHours := map (fun n => bedtimeHour (Sleep.start n)) prevNights in
    let medianBedHour := median prevBedHours in
    let currentBedHour := bedtimeHour (Sleep.start night) in
    let bedtimeDeviation := Math_abs (currentBedHour - medianBedHour) in
    Math_max 0 (100 - bedtimeDeviation * 25).

Definition computeEnhancedSleepScore
  (night : Sleep.t) (prevNights : list Sleep.t)
  : ComputedEnhancedSleepScore.t :=
  let sufficiency := scoreSufficiency night in
  let efficiency := scoreEfficiency night in
  let stageQuality := scoreStageQuality night in
  let consistency := scoreConsistency night prevNights in
  let score :=
    Math_round (sufficiency * 0.3 + efficiency * 0.25
                + stageQuality * 0.25 + consistency * 0.2) in
  let level :=
    if geb score 70 then ComputedEnhancedSleepScore.green
    else if geb score 40 then ComputedEnhancedSleepScore.yellow
    else ComputedEnhancedSleepScore.red in
  ComputedEnhancedSleepScore.mk
    (Sleep.date night) score sufficiency efficiency stageQuality
    consistency level.

End LocalClock.
End SleepScore.

(** ** VO2 max (vo2max.ts) *)

Module ComputedVO2Max.
Record t : Type := mk {
  vo2max : Q;
  classification : string;
  percentile : Q;
}.
End ComputedVO2Max.

Module VO2Max.
Import JS.
Open Scope Q_scope.

Definition estimateVO2Max (maxHR restingHR : Q) : ComputedVO2Max.t :=
  let raw := 15.3 * (maxHR / restingHR) in
  let vo2max := Math_round (raw * 10) / 10 in
  let '(classification, percentile) :=
    if ltb vo2max 36 then ("Poor", 15)
    else if ltb vo2max 42 then ("Fair", 30)
    else if ltb vo2max 46 then ("Average", 50)
    else if ltb vo2max 50 then ("Good", 70)
    else if ltb vo2max 56 then ("Excellent", 85)
    else ("Superior", 95) in
  ComputedVO2Max.mk vo2max classification percentile.

End VO2Max.

(** ** Sleep need (sleep-need.ts) *)

Module ComputedSleepNeed.
Record t : Type := mk {
  recommendedMin : Q;
  baseMin : Q;
  strainAdjustMin : Q;
  debtAdjustMin : Q;
}.
End ComputedSleepNeed.

Module SleepNeed.
Import JS.
Open Scope Q_scope.

Definition computeSleepNeed (todayStrain sleepDebtMin : Q)
  : ComputedSleepNeed.t :=
  let baseMin := 480 in
  let strainAdjustMin :=
    if ltb todayStrain 7 then 0
    else if ltb todayStrain 14 then 15
    else if ltb todayStrain 18 then 30
    else 45 in
  let debtAdjustMin := Math_min (Math_max (sleepDebtMin * 0.25) 0) 30 in
  let recommendedMin := baseMin + strainAdjustMin + debtAdjustMin in
  ComputedSleepNeed.mk recommendedMin baseMin strainAdjustMin debtAdjustMin.

(** [computeSleepDebt]: the sum of the positive deficits. *)
Definition computeSleepDebt (recentSleepMinutes : list Q) (recommendedMin : Q)
  : Q :=
  fold_left
    (fun totalDebt actual =>
       let deficit := recommendedMin - actual in
       if gtb deficit 0 then totalDebt + deficit else totalDebt)
    recentSleepMinutes 0.

End SleepNeed.

(** ** Daily indexer (the heart-rate indexing helpers of the loaders) *)

Module Indexer.
Import JS.
Open Scope Q_scope.

(** [rec.time >= '02:00' && rec.time < '05:00'] *)
Definition in_night_window (time : string) : bool :=
  str_geb time "02:00" && str_ltb time "05:00".

(** The body of the first loop of [buildDailyHRSummary]: update the
    entry of the record's date in place, or create it. *)
Definition summary_step
  (map : gmap string DailyHRSummary.t) (rec : HeartRateRecord)
  : gmap string DailyHRSummary.t :=
  let hr := HeartRateAuto.heartRate rec in
  match map !! HeartRateAuto.date rec with
  | Some existing =>
      let min' := Math_min (DailyHRSummary.min existing) hr in
      let max' := Math_max (DailyHRSummary.max existing) hr in
      let avg' :=
        PrimFloat.div
          (PrimFloat.add
             (PrimFloat.mul (DailyHRSummary.avg existing)
                            (of_count (DailyHRSummary.count existing)))
             (to_double hr))
          (of_count (DailyHRSummary.count existing + 1)) in
      let count' := (DailyHRSummary.count existing + 1)%nat in
      let resting' :=
        if in_night_window (HeartRateAuto.time rec)
        then xmin (DailyHRSummary.resting existing) hr
        else DailyHRSummary.resting existing in
      <[HeartRateAuto.date rec :=
          DailyHRSummary.mk (DailyHRSummary.date existing)
            min' max' avg' resting' count']> map
  | None =>
      let isResting := in_night_window (HeartRateAuto.time rec) in
      <[HeartRateAuto.date rec :=
          DailyHRSummary.mk (HeartRateAuto.date rec) hr hr (to_double hr)
            (if isResting then Fin hr else Infinity) 1]> map
  end.

(** The body of the second loop: a day without night readings falls
    back to the day's minimum. *)
Definition resting_fallback (summary : DailyHRSummary.t) : DailyHRSummary.t :=
  if is_Infinity (DailyHRSummary.resting summary) then
    DailyHRSummary.mk (DailyHRSummary.date summary)
      (DailyHRSummary.min summary) (DailyHRSummary.max summary)
      (DailyHRSummary.avg summary) (Fin (DailyHRSummary.min summary))
      (DailyHRSummary.count summary)
  else summary.

Definition buildDailyHRSummary (records : list HeartRateRecord)
  : gmap string DailyHRSummary.t :=
  resting_fallback <$> fold_left summary_step records ∅.

Definition buildHeartRateByDay (records : list HeartRateRecord)
  : gmap string (list HeartRateRecord) :=
  fold_left
    (fun map rec =>
       match map !! HeartRateAuto.date rec with
       | Some existing => <[HeartRateAuto.date rec := existing ++ [rec]]> map
       | None => <[HeartRateAuto.date rec := [rec]]> map
       end)
    records ∅.

End Indexer.

(** ** Orchestrator (compute-scores.ts) *)

Module ComputeScores.
Import JS JSArray.
Open Scope Q_scope.

Record ScoreInput : Type := mkInput {
  heartRateByDay : gmap string (list HeartRateAuto.t);
  dailyHRSummary : gmap string DailyHRSummary.t;
  sleep : list Sleep.t;
}.

Record ComputedScores : Type := mkScores {
  computedStrain : gmap string ComputedDailyStrain.t;
  computedRecovery : gmap string ComputedRecoveryScore.t;
  computedSleepScore : gmap string ComputedEnhancedSleepScore.t;
  computedVO2Max : option ComputedVO2Max.t;
}.

Definition MAX_HR : Q := 190.

Section Host.

(** The host facilities: the local clock behind [new Date(iso)] and
    [a.localeCompare(b)]. *)
Variable getHours : string -> Q.
Variable getMinutes : string -> Q.
Variable localeCompare : string -> string -> Q.

(** 1. Daily strain from HR zones. *)
Definition strain_pass (heartRateByDay : gmap string (list HeartRateAuto.t))
  : gmap string ComputedDailyStrain.t :=
  (fun dayRecords => Strain.computeDailyStrain dayRecords MAX_HR)
    <$> heartRateByDay.

(** 2. Enhanced sleep scores, over the nights sorted by date. *)
Definition sleep_pass (sleep : list Sleep.t)
  : gmap string ComputedEnhancedSleepScore.t :=
  let sortedSleep :=
    sort_by (fun a b => localeCompare (Sleep.date a) (Sleep.date b)) sleep in
  fold_left
    (fun computedSleepScore i =>
       match sortedSleep !! i with
       | Some night =>
           let prevNights := slice (Nat.max 0 (i - 14)) i sortedSleep in
           <[Sleep.date night :=
               SleepScore.computeEnhancedSleepScore getHours getMinutes
                 night prevNights]> computedSleepScore
       | None => computedSleepScore
       end)
    (seq 0 (length sortedSleep)) ∅.

(** 3. Nightly resting HR of every date that has one. *)
Definition nightly_pass
  (heartRateByDay : gmap string (list HeartRateAuto.t))
  (allDates : list string) : gmap string Q :=
  fold_left
    (fun nightlyRHRMap date =>
       match heartRateByDay !! date with
       | Some dayRecords =>
           match Recovery.computeNightlyRestingHR dayRecords with
           | Some rhr => <[date := rhr]> nightlyRHRMap
           | None => nightlyRHRMap
           end
       | None => nightlyRHRMap
       end)
    allDates ∅.

(** 4. Daily recovery scores, in ascending date order. *)
Definition recovery_pass
  (allDates : list string) (nightlyRHRMap : gmap string Q)
  (sleep : list Sleep.t)
  (computedStrain : gmap string ComputedDailyStrain.t)
  : gmap string ComputedRecoveryScore.t :=
  let sleepByDate : gmap string Sleep.t :=
    fold_left (fun m s => <[Sleep.date s := s]> m) sleep ∅ in
  fold_left
    (fun computedRecovery i =>
       match allDates !! i with
       | Some date =>
           let rhr := nightlyRHRMap !! date in
           (* 14-day rolling RHR baseline *)
           let baselineRHRs :=
             omap (fun d => nightlyRHRMap !! d)
                  (slice (Nat.max 0 (i - 14)) i allDates) in
           let rhrBaseline := Recovery.computeRHRBaseline baselineRHRs in
           let sleepNight := sleepByDate !! date in
           (* prior day strain *)
           let priorDate :=
             if (0 <? i)%nat then allDates !! (i - 1)%nat else None in
           let priorStrain :=
             match priorDate with
             | Some d =>
                 (* an empty string is falsy *)
                 if String.eqb d EmptyString then None
                 else computedStrain !! d
             | None => None
             end in
           <[date :=
               Recovery.computeDailyRecovery date rhr rhrBaseline
                 sleepNight priorStrain]> computedRecovery
       | None => computedRecovery
       end)
    (seq 0 (length allDates)) ∅.

(** 5. VO2 max estimate from the daily summaries. *)
Definition vo2max_pass (dailyHRSummary : gmap string DailyHRSummary.t)
  : option ComputedVO2Max.t :=
  if (0 <? size dailyHRSummary)%nat then
    let summaries := (map_to_list dailyHRSummary).*2 in
    let overallMaxHR :=
      fold_left (fun m summary => Math_max m (DailyHRSummary.max summary))
                summaries 0 in
    let restingHRs :=
      omap (fun summary =>
              match DailyHRSummary.resting summary with
              | Fin r => Some r        (* summary.resting < Infinity *)
              | Infinity => None
              end) summaries in
    if (0 <? length restingHRs)%nat && gtb overallMaxHR 0 then
      let sortedRHRs := sort_by numeric_cmp restingHRs in
      let n := length sortedRHRs in
      let medianRHR :=
        if (n mod 2 =? 1)%nat then at_index sortedRHRs (n / 2)
        else (at_index sortedRHRs (n / 2 - 1) + at_index sortedRHRs (n / 2))
             / 2 in
      Some (VO2Max.estimateVO2Max overallMaxHR medianRHR)
    else None
  else None.

Definition computeAllScores (input : ScoreInput) : ComputedScores :=
  let computedStrain := strain_pass (heartRateByDay input) in
  let computedSleepScore := sleep_pass (sleep input) in
  let allDates :=
    sort_by default_cmp (map_to_list (heartRateByDay input)).*1 in
  let nightlyRHRMap := nightly_pass (heartRateByDay input) allDates in
  let computedRecovery :=
    recovery_pass allDates nightlyRHRMap (sleep input) computedStrain in
  let computedVO2Max := vo2max_pass (dailyHRSummary input) in
  mkScores computedStrain computedRecovery computedSleepScore computedVO2Max.

End Host.
End ComputeScores.

(** ** Vocabulary for the statements about the indexer *)

Module IndexerSpec.
Import JS.
Open Scope Q_scope.

(** The "HH:mm" string of a time of day. *)
Definition two_digit (n : nat) : string :=
  String (Ascii.ascii_of_nat (48 + n / 10))
    (String (Ascii.ascii_of_nat (48 + n mod 10)) EmptyString).

Definition hhmm (h m : nat) : string :=
  String.append (two_digit h) (String.append ":" (two_digit m)).

(** The heart rates of the samples of date [d], in input order. *)
Definition day_rates (d : string) (records : list HeartRateRecord) : list Q :=
  HeartRateAuto.heartRate
    <$> filter (fun r => HeartRateAuto.date r = d) records.

(** The heart rates of the samples of date [d] whose time lies in
    [02:00, 05:00). *)
Definition night_rates (d : string) (records : list HeartRateRecord)
  : list Q :=
  HeartRateAuto.heartRate
    <$> filter (fun r => HeartRateAuto.date r = d
                         /\ Indexer.in_night_window (HeartRateAuto.time r) = true)
               records.

(** [m] is the least (greatest) element of [l]. *)
Definition is_min_of (m : Q) (l : list Q) : Prop :=
  m ∈ l /\ forall x, x ∈ l -> m <= x.

Definition is_max_of (m : Q) (l : list Q) : Prop :=
  m ∈ l /\ forall x, x ∈ l -> x <= m.

(** What the first loop of [buildDailyHRSummary] maintains for the entry
    [s] of date [d] after it has read [records]. *)
Record summary_inv (d : string) (records : list HeartRateRecord)
  (s : DailyHRSummary.t) : Prop := mkInv {
  inv_min : is_min_of (DailyHRSummary.min s) (day_rates d records);
  inv_max : is_max_of (DailyHRSummary.max s) (day_rates d records);
  inv_resting :
    match DailyHRSummary.resting s with
    | Infinity => night_rates d records = []
    | Fin r => is_min_of r (night_rates d records)
    end;
}.

(** The invariant of the whole map. *)
Definition loop_inv (records : list HeartRateRecord)
  (m : gmap string DailyHRSummary.t) : Prop :=
  forall d,
    match m !! d with
    | Some s => summary_inv d records s
    | None => day_rates d records = []
    end.

End IndexerSpec.

(** ** Sample inputs *)

Module Samples.
Open Scope Q_scope.

(** A sample in the peak zone for a maximum heart rate of 190. *)
Definition peak_sample : HeartRateRecord :=
  HeartRateAuto.mk "2025-06-01" "12:00" 170.

(** Five samples of one day, one or two per zone. *)
Definition zone_samples : list HeartRateRecord :=
  [HeartRateAuto.mk "2025-06-01" "08:00" 60;
   HeartRateAuto.mk "2025-06-01" "09:00" 100;
   HeartRateAuto.mk "2025-06-01" "10:00" 140;
   HeartRateAuto.mk "2025-06-01" "11:00" 170;
   HeartRateAuto.mk "2025-06-01" "12:00" 175].

(** Two days of samples, unordered: the first day has readings between
    02:00 and 05:00, the second has none. *)
Definition two_days : list HeartRateRecord :=
  [HeartRateAuto.mk "2025-06-02" "13:00" 150;
   HeartRateAuto.mk "2025-06-01" "12:00" 120;
   HeartRateAuto.mk "2025-06-01" "03:10" 55;
   HeartRateAuto.mk "2025-06-01" "23:40" 48;
   HeartRateAuto.mk "2025-06-02" "05:00" 61;
   HeartRateAuto.mk "2025-06-01" "04:59" 52;
   HeartRateAuto.mk "2025-06-02" "01:59" 58].

Definition first_day_summary : DailyHRSummary.t :=
  DailyHRSummary.mk "2025-06-01" 48 120 (JS.to_double (1650 # 24))
    (JS.Fin 52) 4.

Definition second_day_summary : DailyHRSummary.t :=
  DailyHRSummary.mk "2025-06-02" 58 150 (JS.to_double (538 # 6))
    (JS.Fin 58) 3.

(** Six samples of one day, all of 40.2 beats per minute (the double
    nearest to it, as for every heart rate). *)
Definition steady_day : list HeartRateRecord :=
  replicate 6 (HeartRateAuto.mk "2025-06-04" "12:00" 40.2).

(** A night of exactly 480 minutes of sleep. *)
Definition full_night : Sleep.t :=
  Sleep.mk "2025-06-01" 100 260 15 "2025-05-31T23:10:00"
           "2025-06-01T07:25:00" 120.

(** A host whose local clock reads the wall-clock digits of the ISO
    string ("YYYY-MM-DDTHH:mm:ss"). *)
Definition digit (a : Ascii.ascii) : Q :=
  inject_Z (Z.of_nat (Ascii.nat_of_ascii a) - 48).

Definition two_digits (s : string) (pos : nat) : Q :=
  match String.get pos s, String.get (S pos) s with
  | Some a, Some b => digit a * 10 + digit b
  | _, _ => 0
  end.

Definition wall_clock_hours (iso : string) : Q := two_digits iso 11.
Definition wall_clock_minutes (iso : string) : Q := two_digits iso 14.

(** An input with sleep data and no heart-rate data. *)
Definition sleep_only_input : ComputeScores.ScoreInput :=
  ComputeScores.mkInput ∅ ∅ [full_night].

(** The input the loaders build from [two_days] and one night. *)
Definition two_days_input : ComputeScores.ScoreInput :=
  ComputeScores.mkInput
    (Indexer.buildHeartRateByDay two_days)
    (Indexer.buildDailyHRSummary two_days)
    [full_night].

End Samples.

(** ** Vocabulary for further statements about the strain engine *)

Module StrainSpec.
Open Scope Q_scope.

(** The position of a strain level on the scale rest < light < moderate
    < high < all-out. *)
Definition level_rank (l : ComputedDailyStrain.level) : nat :=
  match l with
  | ComputedDailyStrain.level_rest => 0
  | ComputedDailyStrain.level_light => 1
  | ComputedDailyStrain.level_moderate => 2
  | ComputedDailyStrain.level_high => 3
  | ComputedDailyStrain.level_all_out => 4
  end.

(** The raw training impulse of the loop counters. *)
Definition raw_impulse (c : DataTransforms.counters) : nat :=
  (DataTransforms.n_fatBurn c * 1 + DataTransforms.n_cardio c * 2
   + DataTransforms.n_peak c * 3)%nat.

(** A thousand samples at rest and a single one in the fat-burn zone. *)
Definition easy_day : list HeartRateRecord :=
  replicate 1000 (HeartRateAuto.mk "2025-06-03" "10:00" 62)
  ++ [HeartRateAuto.mk "2025-06-03" "18:00" 100].

End StrainSpec.

(** ** Vocabulary for further statements about the recovery engine *)

Module RecoverySpec.
Open Scope Q_scope.

(** The minutes asleep of a night: deep + light + REM. *)
Definition asleep (night : Sleep.t) : Q :=
  Sleep.deepSleepTime night + Sleep.shallowSleepTime night
  + Sleep.REMTime night.

(** The heart rates of the records whose time lies in [02:00, 05:00). *)
Definition window_rates (hrRecords : list HeartRateRecord) : list Q :=
  map HeartRateAuto.heartRate
    (List.filter (fun r => Recovery.in_night_window (HeartRateAuto.time r))
       hrRecords).

(** A short night and a strain record for the examples. *)
Definition short_night : Sleep.t :=
  Sleep.mk "2025-06-02" 60 200 30 "2025-06-02T00:40:00"
           "2025-06-02T06:05:00" 65.

Definition hard_day : ComputedDailyStrain.t :=
  ComputedDailyStrain.mk "2025-06-01" 150 (163 # 10)
    (ComputedDailyStrain.mkZoneMinutes 900 60 30 10)
    ComputedDailyStrain.level_high.

Definition light_day : ComputedDailyStrain.t :=
  ComputedDailyStrain.mk "2025-06-01" 20 (38 # 10)
    (ComputedDailyStrain.mkZoneMinutes 900 20 0 0)
    ComputedDailyStrain.level_light.

(** A night of 400 minutes asleep in the proportions 20 % deep, 55 %
    light, 25 % REM. *)
Definition ideal_night : Sleep.t :=
  Sleep.mk "2025-06-03" 80 220 25 "2025-06-02T23:30:00"
           "2025-06-03T06:35:00" 100.

End RecoverySpec.

(** ** Vocabulary for statements about sorting and medians *)

Module MedianSpec.
Open Scope Q_scope.

#[export] Instance Qle_decision (x y : Q) : Decision (x <= y) :=
  match Qlt_le_dec y x with
  | left H => right (Qlt_not_le _ _ H)
  | right H => left H
  end.

(** [m] is a median of [l]: at least half of the values are at most [m]
    and at least half are at least [m]. *)
Definition is_median (m : Q) (l : list Q) : Prop :=
  (length l <= 2 * length (filter (fun x => (x <= m)%Q) l))%nat
  /\ (length l <= 2 * length (filter (fun x => (m <= x)%Q) l))%nat.

(** [m] lies between two values of [l]. *)
Definition within_values (m : Q) (l : list Q) : Prop :=
  exists lo hi, lo ∈ l /\ hi ∈ l /\ lo <= m /\ m <= hi.

End MedianSpec.

(** ** Vocabulary for statements about the sleep score *)

Module SleepScoreSpec.
Open Scope Q_scope.

(** The local clock reads a time of day for the start of the night: an
    hour from 0 to 23 and a minute from 0 to 59.  It does for every
    string that [new Date] can parse. *)
Definition valid_start (getHours getMinutes : string -> Q) (night : Sleep.t)
  : Prop :=
  (0 <= getHours (Sleep.start night) <= 23)
  /\ (0 <= getMinutes (Sleep.start night) <= 59).

End SleepScoreSpec.

(** ** Strain coach (strain-coach.ts) *)

Module ComputedStrainCoach.
Record t : Type := mk {
  targetMin : Q;
  targetMax : Q;
  label : string;
  description : string;
}.
End ComputedStrainCoach.

Module StrainCoach.
Open Scope Q_scope.

Definition computeStrainTarget (recovery : option ComputedRecoveryScore.t)
  : ComputedStrainCoach.t :=
  match recovery with
  | None =>
      ComputedStrainCoach.mk 7 14 "MODERATE"
        "No recovery data — aim for a balanced effort."
  | Some r =>
      match ComputedRecoveryScore.lvl r with
      | ComputedRecoveryScore.green =>
          ComputedStrainCoach.mk 14 21 "PUSH HARD"
            "High recovery — your body is ready for intense training."
      | ComputedRecoveryScore.yellow =>
          ComputedStrainCoach.mk 7 14 "MODERATE"
            "Moderate recovery — maintain steady effort, avoid overreaching."
      | ComputedRecoveryScore.red =>
          ComputedStrainCoach.mk 0 7 "ACTIVE RECOVERY"
            "Low recovery — focus on light movement and rest."
      end
  end.

End StrainCoach.

(** ** The statistics hook (use-computed-stats.ts) *)

Module UseComputedStats.
Import JS JSArray.
Open Scope Q_scope.

(** [sleep.slice(-14)]: the last 14 elements. *)
Definition last14 {A : Type} (l : list A) : list A :=
  drop (length l - 14) l.

(** The [sleepNeed] block: the recommendation for today's strain and
    the debt of the last 14 nights against 480 minutes. *)
Definition sleepNeed
  (todayStrain : option ComputedDailyStrain.t) (sleep : list Sleep.t)
  : option ComputedSleepNeed.t :=
  match todayStrain with
  | Some today =>
      let recentSleepMin :=
        map (fun s => Sleep.deepSleepTime s + Sleep.shallowSleepTime s
                      + Sleep.REMTime s)
            (last14 sleep) in
      let debt := SleepNeed.computeSleepDebt recentSleepMin 480 in
      Some (SleepNeed.computeSleepNeed (ComputedDailyStrain.strain today) debt)
  | None => None
  end.

(** The [strainCoach] line. *)
Definition strainCoach (todayRecovery : option ComputedRecoveryScore.t)
  : ComputedStrainCoach.t :=
  StrainCoach.computeStrainTarget todayRecovery.

(** A fortnight of full nights, and an older short night before it. *)
Definition good_fortnight : list Sleep.t := replicate 14 Samples.full_night.

End UseComputedStats.

(** ** Further vocabulary for the indexer *)

Module IndexerSpec2.
Open Scope Q_scope.

(** The records of date [d], in input order. *)
Definition day_records (d : string) (records : list HeartRateRecord)
  : list HeartRateRecord :=
  filter (fun r => HeartRateAuto.date r = d) records.

(** What the first loop of [buildDailyHRSummary] maintains about the
    [date] and [count] fields. *)
Definition count_inv (d : string) (records : list HeartRateRecord)
  (s : DailyHRSummary.t) : Prop :=
  DailyHRSummary.date s = d
  /\ DailyHRSummary.count s = length (IndexerSpec.day_rates d records).

End IndexerSpec2.

(** ** Rolling average and downsampling (data-transforms.ts) *)

Module DataTransforms2.
Import JS JSArray.
Open Scope Q_scope.

(** [data[i]] for an array of doubles; a read outside the bounds gives
    [undefined], which is [NaN] in arithmetic. *)
Definition double_at (data : list PrimFloat.float) (i : nat)
  : PrimFloat.float :=
  nth i data PrimFloat.nan.

(** The body of the loop of [rollingAverage]; the state is the running
    sum and the result built so far, both in double precision.
    [window] is a whole number: the code indexes the array with
    [i - window]. *)
Definition rolling_step (data : list PrimFloat.float) (window : nat)
  (st : PrimFloat.float * list PrimFloat.float) (i : nat)
  : PrimFloat.float * list PrimFloat.float :=
  let runningSum := PrimFloat.add (fst st) (double_at data i) in
  let runningSum :=
    if (window <=? i)%nat
    then PrimFloat.sub runningSum (double_at data (i - window))
    else runningSum in
  let count := Nat.min (i + 1) window in
  (runningSum, snd st ++ [PrimFloat.div runningSum (of_count count)]).

Definition rollingAverage (data : list PrimFloat.float) (window : nat)
  : list PrimFloat.float :=
  if (length data =? 0)%nat then []
  else if (window <=? 1)%nat then data
  else snd (fold_left (rolling_step data window)
                      (seq 0 (length data)) (of_count 0, [])).

(** [Math.ceil(n / m)] for whole numbers with [m] positive. *)
Definition ceil_div (n m : nat) : nat := ((n + m - 1) / m)%nat.

(** The loop [for (i = start; i < records.length; i += step)
    result.push(records[i])].  Each iteration advances [i] by at least
    one when [step] is positive, so [records.length] iterations are
    enough ([fuel]). *)
Fixpoint pick_every (fuel : nat) (records : list HeartRateRecord)
  (step i : nat) : list HeartRateRecord :=
  match fuel with
  | O => []
  | S fuel' =>
      match records !! i with
      | Some r => r :: pick_every fuel' records step (i + step)
      | None => []
      end
  end.

(** [maxPoints] is a whole number.  For [maxPoints = 0] and a non-empty
    array the step [Math.ceil(n / 0)] is [Infinity]: the loop pushes
    [records[0]] and stops. *)
Definition downsampleHR (records : list HeartRateRecord) (maxPoints : nat)
  : list HeartRateRecord :=
  if (length records <=? maxPoints)%nat then records
  else
    match maxPoints with
    | O => match records with r :: _ => [r] | [] => [] end
    | S _ =>
        let step := ceil_div (length records) maxPoints in
        pick_every (length records) records step 0
    end.

End DataTransforms2.

(** ** The scoring part of the loader ([loadAllData]) *)

Module Loader.

Section Host.
Variable getHours : string -> Q.
Variable getMinutes : string -> Q.
Variable localeCompare : string -> string -> Q.

(** The indexes are built from the heart-rate records and handed, with
    the sleep nights, to [computeAllScores]. *)
Definition loadAllData_scores
  (heartRateAuto : list HeartRateRecord) (parsedSleep : list Sleep.t)
  : ComputeScores.ComputedScores :=
  let dailyHRSummary := Indexer.buildDailyHRSummary heartRateAuto in
  let heartRateByDay := Indexer.buildHeartRateByDay heartRateAuto in
  ComputeScores.computeAllScores getHours getMinutes localeCompare
    (ComputeScores.mkInput heartRateByDay dailyHRSummary parsedSleep).

End Host.
End Loader.

(** ** Runs of the orchestrator on a machine *)

(** [computeAllScores] once more, as a computation that runs on a
    machine.  The state of the machine (its wall clock, its time-zone
    and locale settings, whatever else changes between two runs) is
    threaded through the calls the program makes to the host:
    [new Date(iso).getHours()], [.getMinutes()] and
    [a.localeCompare(b)].  The engines that call no host facility are
    the ones above. *)
Module Machine.
Import JS JSArray.
Open Scope Q_scope.

Section World.

Variable world : Type.

(** A computation that may consult, and change, the state of the
    machine. *)
Definition run (A : Type) : Type := world -> A * world.

Definition ret {A : Type} (a : A) : run A := fun w => (a, w).

Definition bind {A B : Type} (m : run A) (f : A -> run B) : run B :=
  fun w => let (a, w') := m w in f a w'.

(** The host facilities. *)
Record host : Type := mkHost {
  getHours : string -> run Q;
  getMinutes : string -> run Q;
  localeCompare : string -> string -> run Q;
}.

(** The host reads the same hour and minute for a string, and compares
    two strings the same way, in every state of the machine: its time
    zone and its collation do not change. *)
Definition steady (h : host) : Prop :=
  (forall iso w w', fst (getHours h iso w) = fst (getHours h iso w'))
  /\ (forall iso w w', fst (getMinutes h iso w) = fst (getMinutes h iso w'))
  /\ (forall a b w w',
        fst (localeCompare h a b w) = fst (localeCompare h a b w')).

(** The computation [m] returns [a] in every state of the machine. *)
Definition returns {A : Type} (m : run A) (a : A) : Prop :=
  forall w, fst (m w) = a.

Variable the_host : host.

(** [arr.map(f)] with a callback that calls the host. *)
Fixpoint map_run {A B : Type} (f : A -> run B) (l : list A) : run (list B) :=
  match l with
  | [] => ret []
  | a :: l' =>
      bind (f a) (fun b => bind (map_run f l') (fun bs => ret (b :: bs)))
  end.

(** A [for] loop over [l] whose body calls the host. *)
Fixpoint fold_run {A B : Type} (f : A -> B -> run A) (l : list B) (a : A)
  : run A :=
  match l with
  | [] => ret a
  | b :: l' => bind (f a b) (fold_run f l')
  end.

(** [arr.sort(cmp)] with a comparator that calls the host. *)
Fixpoint insert_by {A : Type} (cmp : A -> A -> run Q) (x : A) (l : list A)
  : run (list A) :=
  match l with
  | [] => ret [x]
  | y :: l' =>
      bind (cmp x y) (fun c =>
        if gtb c 0
        then bind (insert_by cmp x l') (fun r => ret (y :: r))
        else ret (x :: l))
  end.

Fixpoint sort_by {A : Type} (cmp : A -> A -> run Q) (l : list A)
  : run (list A) :=
  match l with
  | [] => ret []
  | x :: l' => bind (sort_by cmp l') (insert_by cmp x)
  end.

Definition bedtimeHour (isoString : string) : run Q :=
  bind (getHours the_host isoString) (fun hours =>
  bind (getMinutes the_host isoString) (fun minutes =>
    let h := hours + minutes / 60 in
    ret (if leb h 12 then h + 24 else h))).

Definition scoreConsistency (night : Sleep.t) (prevNights : list Sleep.t)
  : run Q :=
  if (length prevNights <? 3)%nat then ret 75
  else
    bind (map_run (fun n => bedtimeHour (Sleep.start n)) prevNights)
      (fun prevBedHours =>
    let medianBedHour := SleepScore.median prevBedHours in
    bind (bedtimeHour (Sleep.start night)) (fun currentBedHour =>
    let bedtimeDeviation := Math_abs (currentBedHour - medianBedHour) in
    ret (Math_max 0 (100 - bedtimeDeviation * 25)))).

Definition computeEnhancedSleepScore
  (night : Sleep.t) (prevNights : list Sleep.t)
  : run ComputedEnhancedSleepScore.t :=
  let sufficiency := SleepScore.scoreSufficiency night in
  let efficiency := SleepScore.scoreEfficiency night in
  let stageQuality := SleepScore.scoreStageQuality night in
  bind (scoreConsistency night prevNights) (fun consistency =>
  let score :=
    Math_round (sufficiency * 0.3 + efficiency * 0.25
                + stageQuality * 0.25 + consistency * 0.2) in
  let level :=
    if geb score 70 then ComputedEnhancedSleepScore.green
    else if geb score 40 then ComputedEnhancedSleepScore.yellow
    else ComputedEnhancedSleepScore.red in
  ret (ComputedEnhancedSleepScore.mk
         (Sleep.date night) score sufficiency efficiency stageQuality
         consistency level)).

(** 2. Enhanced sleep scores, over the nights sorted by date. *)
Definition sleep_pass (sleep : list Sleep.t)
  : run (gmap string ComputedEnhancedSleepScore.t) :=
  bind (sort_by (fun a b =>
                   localeCompare the_host (Sleep.date a) (Sleep.date b))
                sleep)
    (fun sortedSleep =>
  fold_run
    (fun computedSleepScore i =>
       match sortedSleep !! i with
       | Some night =>
           let prevNights := slice (Nat.max 0 (i - 14)) i sortedSleep in
           bind (computeEnhancedSleepScore night prevNights) (fun s =>
           ret (<[Sleep.date night := s]> computedSleepScore))
       | None => ret computedSleepScore
       end)
    (seq 0 (length sortedSleep)) ∅).

Definition computeAllScores (input : ComputeScores.ScoreInput)
  : run ComputeScores.ComputedScores :=
  let computedStrain :=
    ComputeScores.strain_pass (ComputeScores.heartRateByDay input) in
  bind (sleep_pass (ComputeScores.sleep input)) (fun computedSleepScore =>
  let allDates :=
    JSArray.sort_by default_cmp
      (map_to_list (ComputeScores.heartRateByDay input)).*1 in
  let nightlyRHRMap :=
    ComputeScores.nightly_pass (ComputeScores.heartRateByDay input) allDates in
  let computedRecovery :=
    ComputeScores.recovery_pass allDates nightlyRHRMap
      (ComputeScores.sleep input) computedStrain in
  let computedVO2Max :=
    ComputeScores.vo2max_pass (ComputeScores.dailyHRSummary input) in
  ret (ComputeScores.mkScores computedStrain computedRecovery
         computedSleepScore computedVO2Max)).

End World.

Arguments ret {world A} a.
Arguments bind {world A B} m f.
Arguments getHours {world} h.
Arguments getMinutes {world} h.
Arguments localeCompare {world} h.
Arguments steady {world} h.
Arguments returns {world A} m a.
Arguments map_run {world A B} f l.
Arguments fold_run {world A B} f l a.
Arguments insert_by {world A} cmp x l.
Arguments sort_by {world A} cmp l.
Arguments bedtimeHour {world} the_host isoString.
Arguments scoreConsistency {world} the_host night prevNights.
Arguments computeEnhancedSleepScore {world} the_host night prevNights.
Arguments sleep_pass {world} the_host sleep.
Arguments computeAllScores {world} the_host input.

(** A machine whose state counts the calls made to the host so far, and
    whose clock reads the wall-clock digits of the string. *)
Definition counting_host : host nat :=
  mkHost nat
    (fun iso w => (Samples.wall_clock_hours iso, S w))
    (fun iso w => (Samples.wall_clock_minutes iso, S w))
    (fun a b w => (default_cmp a b, S w)).

(** The heart-rate indexes of [Samples.two_days] with a fortnight of
    nights. *)
Definition fortnight_input : ComputeScores.ScoreInput :=
  ComputeScores.mkInput
    (Indexer.buildHeartRateByDay Samples.two_days)
    (Indexer.buildDailyHRSummary Samples.two_days)
    UseComputedStats.good_fortnight.

End Machine.

(** * Properties *)

(** ** Numeric built-ins *)

Module JSFacts.
Import JS.
Open Scope Q_scope.

Lemma Math_min_spec a b :
  (a <= b /\ Math_min a b = a) \/ (b < a /\ Math_min a b = b).
Proof.
  unfold Math_min. destruct (Qle_bool a b) eqn:E.
  - left. split; [by apply Qle_bool_iff|done].
  - right. split; [|done]. apply Qnot_le_lt. intros H.
    apply Qle_bool_iff in H. congruence.
Qed.

Lemma Math_max_spec a b :
  (a <= b /\ Math_max a b = b) \/ (b < a /\ Math_max a b = a).
Proof.
  unfold Math_max. destruct (Qle_bool a b) eqn:E.
  - left. split; [by apply Qle_bool_iff|done].
  - right. split; [|done]. apply Qnot_le_lt. intros H.
    apply Qle_bool_iff in H. congruence.
Qed.

Lemma num_nonneg n : 0 <= num n.
Proof.
  unfold num. change 0 with (inject_Z 0). rewrite <- Zle_Qle. lia.
Qed.

End JSFacts.

(** ** Strain engine *)

Module StrainFacts.
Import JS DataTransforms Strain Samples.
Open Scope Q_scope.

Lemma zone_step_total maxHR c rec :
  counters_total (zone_step maxHR c rec) = S (counters_total c).
Proof.
  unfold zone_step, counters_total.
  repeat case_match; simpl; lia.
Qed.

Lemma zone_loop_total maxHR records c :
  counters_total (fold_left (zone_step maxHR) records c)
  = (counters_total c + length records)%nat.
Proof.
  revert c. induction records as [|rec records IH]; intros c; simpl.
  - lia.
  - rewrite IH, zone_step_total. lia.
Qed.

(** *** The saturation curve, over the reals *)

Lemma Rround_lower (x : R) : (0 <= x)%R -> (0 <= Rround x)%Z.
Proof.
  intros Hx. unfold Rround.
  destruct (base_Int_part (x + / 2)) as [_ Hgt].
  assert (-1 < IZR (Int_part (x + / 2)))%R as H by Lra.lra.
  apply lt_IZR in H. lia.
Qed.

Lemma Rround_upper (x : R) (z : Z) : (x <= IZR z)%R -> (Rround x <= z)%Z.
Proof.
  intros Hx. unfold Rround.
  destruct (base_Int_part (x + / 2)) as [Hle _].
  assert (IZR (Int_part (x + / 2)) < IZR (z + 1))%R as H.
  { rewrite plus_IZR. Lra.lra. }
  apply lt_IZR in H. lia.
Qed.

Lemma Rround_reach (x : R) (z : Z) :
  (IZR z - / 2 <= x)%R -> (z <= Rround x)%Z.
Proof.
  intros Hx. unfold Rround.
  destruct (base_Int_part (x + / 2)) as [_ Hgt].
  assert (IZR (z - 1) < IZR (Int_part (x + / 2)))%R as H.
  { rewrite minus_IZR. Lra.lra. }
  apply lt_IZR in H. lia.
Qed.

Lemma exp_saturation (n : nat) :
  (0 < exp (- IZR (Z.of_nat n) / 100) <= 1)%R.
Proof.
  split; [apply exp_pos|].
  rewrite <- exp_0.
  assert (0 <= IZR (Z.of_nat n))%R as Hn by (apply IZR_le; lia).
  destruct (Req_dec (- IZR (Z.of_nat n) / 100) 0) as [->|Hne].
  - apply Rle_refl.
  - left. apply exp_increasing. Lra.lra.
Qed.

(** Before rounding, the curve stays in [0, 21). *)
Lemma unrounded_strain_below_21 (n : nat) :
  (0 <= 21 * (1 - exp (- IZR (Z.of_nat n) / 100)) < 21)%R.
Proof.
  destruct (exp_saturation n) as [Hpos Hle]. split; Lra.lra.
Qed.

Lemma strain_tenths_range (n : nat) : (0 <= strain_tenths n <= 210)%Z.
Proof.
  unfold strain_tenths.
  destruct (exp_saturation n) as [Hpos Hle]. split.
  - apply Rround_lower. Lra.nra.
  - apply Rround_upper. Lra.nra.
Qed.

(** [e^9 > 420]: from [1 + x < e^x] at [x = 9/16], squared four times. *)
Lemma exp_9_large : (420 < exp 9)%R.
Proof.
  assert (1 + 9 / 16 < exp (9 / 16))%R as H0.
  { apply exp_ineq1. Lra.lra. }
  assert (exp (9 / 8) = exp (9 / 16) * exp (9 / 16))%R as E1.
  { rewrite <- exp_plus. f_equal. Lra.lra. }
  assert (exp (9 / 4) = exp (9 / 8) * exp (9 / 8))%R as E2.
  { rewrite <- exp_plus. f_equal. Lra.lra. }
  assert (exp (9 / 2) = exp (9 / 4) * exp (9 / 4))%R as E3.
  { rewrite <- exp_plus. f_equal. Lra.lra. }
  assert (exp 9 = exp (9 / 2) * exp (9 / 2))%R as E4.
  { rewrite <- exp_plus. f_equal. Lra.lra. }
  assert (2 < exp (9 / 8))%R as H1 by (rewrite E1; Lra.nra).
  assert (4 < exp (9 / 4))%R as H2 by (rewrite E2; Lra.nra).
  assert (16 < exp (9 / 2))%R as H3 by (rewrite E3; Lra.nra).
  rewrite E4. Lra.nra.
Qed.

Lemma strain_tenths_900 : strain_tenths 900 = 210%Z.
Proof.
  pose proof (strain_tenths_range 900) as [_ Hup].
  assert (210 <= strain_tenths 900)%Z as Hlo; [|lia].
  unfold strain_tenths. apply Rround_reach.
  change (Z.of_nat 900) with 900%Z.
  replace (Ropp (IZR 900) / 100)%R with (Ropp 9) by Lra.lra.
  rewrite exp_Ropp.
  pose proof exp_9_large as H9.
  assert (/ exp 9 < / 420)%R as Hinv.
  { apply Rinv_lt_contravar; Lra.nra. }
  Lra.lra.
Qed.

Lemma computeHRZones_total records maxHR :
  let zones := computeHRZones records maxHR in
  (minutes (rest zones) + minutes (fatBurn zones)
   + minutes (cardio zones) + minutes (peak zones))%nat = length records.
Proof.
  cbn. pose proof (zone_loop_total maxHR records (mkCounters 0 0 0 0)) as H.
  unfold counters_total in H. cbn in H. exact H.
Qed.

Lemma strain_of_tenths records maxHR :
  ComputedDailyStrain.strain (computeDailyStrain records maxHR)
  = inject_Z
      (strain_tenths (ComputedDailyStrain.rawTRIMP
                        (computeDailyStrain records maxHR))) / 10.
Proof. reflexivity. Qed.

Lemma rawTRIMP_300_peak :
  ComputedDailyStrain.rawTRIMP (computeDailyStrain (replicate 300 peak_sample) 190)
  = 900%nat.
Proof.
  unfold computeDailyStrain. cbn [ComputedDailyStrain.rawTRIMP].
  vm_compute. reflexivity.
Qed.

(** C2: for every record array and every positive maximum heart rate,
    the four zone-minute counts of [computeHRZones], and the
    [zoneMinutes] that [computeDailyStrain] reports, sum exactly to the
    number of input records. *)
Theorem C2_zone_minutes_sum (records : list HeartRateRecord) (maxHR : Q) :
  0 < maxHR ->
  let zones := computeHRZones records maxHR in
  let zm := ComputedDailyStrain.zoneMinutes (computeDailyStrain records maxHR) in
  (minutes (rest zones) + minutes (fatBurn zones)
   + minutes (cardio zones) + minutes (peak zones))%nat = length records
  /\ (ComputedDailyStrain.rest zm + ComputedDailyStrain.fatBurn zm
      + ComputedDailyStrain.cardio zm + ComputedDailyStrain.peak zm)%nat
     = length records.
Proof.
  intros _. split.
  - apply computeHRZones_total.
  - unfold computeDailyStrain. cbn [ComputedDailyStrain.zoneMinutes
      ComputedDailyStrain.rest ComputedDailyStrain.fatBurn
      ComputedDailyStrain.cardio ComputedDailyStrain.peak].
    apply computeHRZones_total.
Qed.

Lemma C2_zone_minutes_sum_witness :
  0 < 190
  /\ let zm := ComputedDailyStrain.zoneMinutes
                 (computeDailyStrain zone_samples 190) in
     (ComputedDailyStrain.rest zm + ComputedDailyStrain.fatBurn zm
      + ComputedDailyStrain.cardio zm + ComputedDailyStrain.peak zm)%nat
     = 5%nat.
Proof.
  split; [reflexivity|].
  apply (C2_zone_minutes_sum zone_samples 190). reflexivity.
Defined.

(** C1 (as amended): for every record array and every positive maximum
    heart rate, the strain returned by [computeDailyStrain] lies in the
    closed interval [0, 21]. *)
Theorem C1_strain_in_closed_range (records : list HeartRateRecord) (maxHR : Q) :
  0 < maxHR ->
  0 <= ComputedDailyStrain.strain (computeDailyStrain records maxHR) <= 21.
Proof.
  intros _. rewrite strain_of_tenths.
  destruct (strain_tenths_range
              (ComputedDailyStrain.rawTRIMP (computeDailyStrain records maxHR)))
    as [Hlo Hhi].
  rewrite Zle_Qle in Hlo, Hhi.
  change (inject_Z 0) with 0 in Hlo. change (inject_Z 210) with 210 in Hhi.
  split.
  - apply Qle_shift_div_l; [reflexivity|]. lra.
  - apply Qle_shift_div_r; [reflexivity|]. lra.
Qed.

Lemma C1_strain_in_closed_range_witness :
  0 < 190
  /\ 0 <= ComputedDailyStrain.strain (computeDailyStrain zone_samples 190)
       <= 21.
Proof.
  split; [reflexivity|].
  apply (C1_strain_in_closed_range zone_samples 190). reflexivity.
Defined.

(** C1 as stated fails: three hundred samples in the peak zone give a raw
    impulse of 900 and a strain of exactly 21. *)
Lemma C1_strain_reaches_21 :
  0 < 190
  /\ ComputedDailyStrain.strain
       (computeDailyStrain (replicate 300 peak_sample) 190) == 21
  /\ ~ (ComputedDailyStrain.strain
          (computeDailyStrain (replicate 300 peak_sample) 190) < 21).
Proof.
  assert (ComputedDailyStrain.strain
            (computeDailyStrain (replicate 300 peak_sample) 190) == 21) as E.
  { rewrite strain_of_tenths, rawTRIMP_300_peak, strain_tenths_900.
    reflexivity. }
  split; [reflexivity|]. split; [exact E|].
  rewrite E. intros H. discriminate H.
Qed.

End StrainFacts.

(** ** Recovery engine *)

Module RecoveryFacts.
Import JS Recovery Samples.
Open Scope Q_scope.

Lemma Math_min_100_l x : x == 100 -> Math_min 100 x = 100.
Proof.
  intros E. unfold Math_min.
  replace (Qle_bool 100 x) with true; [reflexivity|].
  symmetry. apply Qle_bool_iff. rewrite E. apply Qle_refl.
Qed.

(** C3: with a nightly resting HR equal to the baseline, a night whose
    deep + light + REM minutes total exactly 480 and no prior-day strain,
    the recovery score is exactly 95, whatever the date and the
    baseline. *)
Theorem C3_recovery_score_95
  (date : string) (baseline : Q) (night : Sleep.t) :
  Sleep.deepSleepTime night + Sleep.shallowSleepTime night
  + Sleep.REMTime night == 480 ->
  ComputedRecoveryScore.score
    (computeDailyRecovery date (Some baseline) baseline (Some night) None)
  = 95.
Proof.
  intros Hsleep. unfold computeDailyRecovery.
  cbn [ComputedRecoveryScore.score].
  rewrite (Math_min_100_l (100 - (baseline - baseline) * 5)) by ring.
  rewrite (Math_min_100_l
             ((Sleep.deepSleepTime night + Sleep.shallowSleepTime night
               + Sleep.REMTime night) / 480 * 100))
    by (rewrite Hsleep; reflexivity).
  reflexivity.
Qed.

Lemma C3_recovery_score_95_witness :
  Sleep.deepSleepTime full_night + Sleep.shallowSleepTime full_night
  + Sleep.REMTime full_night == 480
  /\ ComputedRecoveryScore.score
       (computeDailyRecovery "2025-06-01" (Some 58) 58 (Some full_night) None)
     = 95.
Proof.
  split; [reflexivity|].
  apply (C3_recovery_score_95 "2025-06-01" 58 full_night). reflexivity.
Defined.

End RecoveryFacts.

(** ** Sleep score engine *)

Module SleepScoreFacts.
Import JS SleepScore.
Open Scope Q_scope.

(** C4: a night with 96 deep, 264 light, 120 REM and 0 wake minutes and
    no previous nights gets consistency 75 (the fallback for fewer than
    three prior nights) and sufficiency 100, whatever its date and
    timestamps and whatever the local clock. *)
Theorem C4_sleep_score_example
  (getHours getMinutes : string -> Q) (date start stop : string) :
  let night := Sleep.mk date 96 264 0 start stop 120 in
  let result := computeEnhancedSleepScore getHours getMinutes night [] in
  ComputedEnhancedSleepScore.consistency result = 75
  /\ ComputedEnhancedSleepScore.sufficiency result == 100.
Proof.
  intros night result. split.
  - reflexivity.
  - vm_compute. reflexivity.
Qed.

End SleepScoreFacts.

(** ** VO2 max estimator *)

Module VO2MaxFacts.
Import JS VO2Max.
Open Scope Q_scope.

(** C5: [estimateVO2Max 190 50] is 58.1 (15.3 * 190 / 50 = 58.14, rounded
    to one decimal), classified "Superior". *)
Theorem C5_vo2max_example :
  ComputedVO2Max.vo2max (estimateVO2Max 190 50) == 58.1
  /\ ComputedVO2Max.classification (estimateVO2Max 190 50) = "Superior".
Proof.
  split.
  - vm_compute. reflexivity.
  - vm_compute. reflexivity.
Qed.

End VO2MaxFacts.

(** ** Sleep need engine *)

Module SleepNeedFacts.
Import JS JSFacts SleepNeed.
Open Scope Q_scope.

Lemma strain_adjust_cases (todayStrain sleepDebtMin : Q) :
  let a := ComputedSleepNeed.strainAdjustMin
             (computeSleepNeed todayStrain sleepDebtMin) in
  a = 0 \/ a = 15 \/ a = 30 \/ a = 45.
Proof.
  cbn. repeat case_match; auto.
Qed.

Lemma debt_adjust_clamped (todayStrain sleepDebtMin : Q) :
  0 <= ComputedSleepNeed.debtAdjustMin
         (computeSleepNeed todayStrain sleepDebtMin) <= 30.
Proof.
  cbn.
  destruct (Math_max_spec (sleepDebtMin * 0.25) 0) as [[H1 ->]|[H1 ->]];
    [destruct (Math_min_spec 0 30) as [[H2 ->]|[H2 ->]]
    |destruct (Math_min_spec (sleepDebtMin * 0.25) 30) as [[H2 ->]|[H2 ->]]];
    lra.
Qed.

(** C10: for every strain and every sleep debt (negative debt included)
    the strain adjustment is one of 0, 15, 30, 45, the debt adjustment
    lies in [0, 30], and [recommendedMin] lies in [480, 555]. *)
Theorem C10_sleep_need_range (todayStrain sleepDebtMin : Q) :
  let need := computeSleepNeed todayStrain sleepDebtMin in
  (ComputedSleepNeed.strainAdjustMin need = 0
   \/ ComputedSleepNeed.strainAdjustMin need = 15
   \/ ComputedSleepNeed.strainAdjustMin need = 30
   \/ ComputedSleepNeed.strainAdjustMin need = 45)
  /\ 0 <= ComputedSleepNeed.debtAdjustMin need <= 30
  /\ 480 <= ComputedSleepNeed.recommendedMin need <= 555.
Proof.
  intros need.
  pose proof (strain_adjust_cases todayStrain sleepDebtMin) as Hs.
  pose proof (debt_adjust_clamped todayStrain sleepDebtMin) as Hd.
  split; [exact Hs|]. split; [exact Hd|].
  assert (ComputedSleepNeed.recommendedMin need
          = 480 + ComputedSleepNeed.strainAdjustMin need
            + ComputedSleepNeed.debtAdjustMin need) as -> by reflexivity.
  fold need in Hs, Hd.
  destruct Hs as [-> | [-> | [-> | ->]]]; lra.
Qed.

End SleepNeedFacts.

(** ** Daily indexer *)

Module IndexerFacts.
Import JS JSFacts Indexer IndexerSpec Samples.
Open Scope Q_scope.

(** On "HH:mm" strings the string test of the loop is the time window
    from 02:00 (included) to 05:00 (excluded). *)
Lemma in_night_window_hhmm (h m : nat) :
  (h < 24)%nat -> (m < 60)%nat ->
  in_night_window (hhmm h m)
  = ((120 <=? 60 * h + m)%nat && (60 * h + m <? 300)%nat).
Proof.
  intros Hh Hm.
  assert (forallb
            (fun h =>
               forallb
                 (fun m =>
                    Bool.eqb (in_night_window (hhmm h m))
                      ((120 <=? 60 * h + m)%nat && (60 * h + m <? 300)%nat))
                 (seq 0 60))
            (seq 0 24) = true) as Hall by (vm_compute; reflexivity).
  rewrite forallb_forall in Hall.
  specialize (Hall h). rewrite forallb_forall in Hall.
  apply Bool.eqb_prop, Hall; apply in_seq; lia.
Qed.

Lemma is_min_of_singleton x : is_min_of x [x].
Proof.
  split; [apply list_elem_of_singleton; reflexivity|].
  intros y Hy. apply list_elem_of_singleton in Hy. subst y. apply Qle_refl.
Qed.

Lemma is_max_of_singleton x : is_max_of x [x].
Proof.
  split; [apply list_elem_of_singleton; reflexivity|].
  intros y Hy. apply list_elem_of_singleton in Hy. subst y. apply Qle_refl.
Qed.

Lemma is_min_of_snoc m l x :
  is_min_of m l -> is_min_of (Math_min m x) (l ++ [x]).
Proof.
  intros [Hin Hle].
  destruct (Math_min_spec m x) as [[Hmx ->]|[Hxm ->]]; split.
  - apply elem_of_app. left. exact Hin.
  - intros y Hy. apply elem_of_app in Hy as [Hy|Hy]; [by apply Hle|].
    apply list_elem_of_singleton in Hy. subst y. exact Hmx.
  - apply elem_of_app. right. apply list_elem_of_singleton. reflexivity.
  - intros y Hy. apply elem_of_app in Hy as [Hy|Hy].
    + apply Qle_trans with m; [lra|by apply Hle].
    + apply list_elem_of_singleton in Hy. subst y. apply Qle_refl.
Qed.

Lemma is_max_of_snoc m l x :
  is_max_of m l -> is_max_of (Math_max m x) (l ++ [x]).
Proof.
  intros [Hin Hle].
  destruct (Math_max_spec m x) as [[Hmx ->]|[Hxm ->]]; split.
  - apply elem_of_app. right. apply list_elem_of_singleton. reflexivity.
  - intros y Hy. apply elem_of_app in Hy as [Hy|Hy].
    + apply Qle_trans with m; [by apply Hle|exact Hmx].
    + apply list_elem_of_singleton in Hy. subst y. apply Qle_refl.
  - apply elem_of_app. left. exact Hin.
  - intros y Hy. apply elem_of_app in Hy as [Hy|Hy]; [by apply Hle|].
    apply list_elem_of_singleton in Hy. subst y. lra.
Qed.

Lemma day_rates_snoc d records rec :
  day_rates d (records ++ [rec])
  = day_rates d records
    ++ (if decide (HeartRateAuto.date rec = d)
        then [HeartRateAuto.heartRate rec] else []).
Proof.
  unfold day_rates. rewrite filter_app, fmap_app. f_equal.
  rewrite filter_cons, filter_nil. case_decide; reflexivity.
Qed.

Lemma night_rates_snoc d records rec :
  night_rates d (records ++ [rec])
  = night_rates d records
    ++ (if decide (HeartRateAuto.date rec = d)
        then if in_night_window (HeartRateAuto.time rec)
             then [HeartRateAuto.heartRate rec] else []
        else []).
Proof.
  unfold night_rates. rewrite filter_app, fmap_app. f_equal.
  rewrite filter_cons, filter_nil.
  destruct (in_night_window (HeartRateAuto.time rec)) eqn:Hw;
    case_decide as H1; case_decide as H2; try reflexivity;
    exfalso; intuition congruence.
Qed.

Lemma night_rates_sub_day d records x :
  x ∈ night_rates d records -> x ∈ day_rates d records.
Proof.
  unfold night_rates, day_rates. intros H.
  apply list_elem_of_fmap in H as (r & -> & Hr).
  apply list_elem_of_fmap. exists r. split; [done|].
  apply list_elem_of_filter in Hr as [[Hd _] Hin].
  apply list_elem_of_filter. done.
Qed.

Lemma night_rates_nil d records :
  day_rates d records = [] -> night_rates d records = [].
Proof.
  intros Hday. apply elem_of_nil_inv. intros x Hx.
  apply night_rates_sub_day in Hx. rewrite Hday in Hx.
  by apply elem_of_nil in Hx.
Qed.

Lemma Math_min_le_l a b : Math_min a b <= a.
Proof. destruct (Math_min_spec a b) as [[? ->]|[? ->]]; lra. Qed.

Lemma Math_min_le_r a b : Math_min a b <= b.
Proof. destruct (Math_min_spec a b) as [[? ->]|[? ->]]; lra. Qed.

Lemma Math_max_ge_l a b : a <= Math_max a b.
Proof. destruct (Math_max_spec a b) as [[? ->]|[? ->]]; lra. Qed.

Lemma Math_max_ge_r a b : b <= Math_max a b.
Proof. destruct (Math_max_spec a b) as [[? ->]|[? ->]]; lra. Qed.

Lemma loop_inv_empty : loop_inv [] ∅.
Proof. intros d. rewrite lookup_empty. reflexivity. Qed.

(** One iteration of the first loop preserves the invariant. *)
Lemma loop_inv_step records m rec :
  loop_inv records m -> loop_inv (records ++ [rec]) (summary_step m rec).
Proof.
  intros Hinv d. unfold summary_step.
  rewrite day_rates_snoc.
  destruct (decide (HeartRateAuto.date rec = d)) as [<-|Hne].
  - specialize (Hinv (HeartRateAuto.date rec)).
    destruct (m !! HeartRateAuto.date rec) as [e|] eqn:He;
      rewrite lookup_insert_eq.
    + destruct Hinv as [Hmin Hmax Hrest].
      constructor; cbn.
      * rewrite day_rates_snoc, decide_True by done.
        by apply is_min_of_snoc.
      * rewrite day_rates_snoc, decide_True by done.
        by apply is_max_of_snoc.
      * rewrite night_rates_snoc, decide_True by done.
        destruct (in_night_window (HeartRateAuto.time rec)).
        -- destruct (DailyHRSummary.resting e) as [r|]; cbn.
           ++ by apply is_min_of_snoc.
           ++ rewrite Hrest. apply is_min_of_singleton.
        -- rewrite app_nil_r. exact Hrest.
    + constructor; cbn.
      * rewrite day_rates_snoc, decide_True, Hinv by done.
        apply is_min_of_singleton.
      * rewrite day_rates_snoc, decide_True, Hinv by done.
        apply is_max_of_singleton.
      * rewrite night_rates_snoc, decide_True by done.
        rewrite (night_rates_nil _ _ Hinv).
        destruct (in_night_window (HeartRateAuto.time rec)).
        -- apply is_min_of_singleton.
        -- reflexivity.
  - specialize (Hinv d). rewrite app_nil_r.
    assert (forall s,
              (<[HeartRateAuto.date rec := s]> m) !! d = m !! d) as Hother.
    { intros s. by apply lookup_insert_ne. }
    assert (forall s, summary_inv d records s
                      -> summary_inv d (records ++ [rec]) s) as Hkeep.
    { intros s [Hmin Hmax Hrest]. constructor.
      - rewrite day_rates_snoc, decide_False, app_nil_r by done. exact Hmin.
      - rewrite day_rates_snoc, decide_False, app_nil_r by done. exact Hmax.
      - rewrite night_rates_snoc, decide_False, app_nil_r by done.
        exact Hrest. }
    destruct (m !! HeartRateAuto.date rec); rewrite Hother;
      (destruct (m !! d); [by apply Hkeep|exact Hinv]).
Qed.

Lemma loop_inv_fold records :
  loop_inv records (fold_left summary_step records ∅).
Proof.
  induction records as [|rec records IH] using rev_ind.
  - apply loop_inv_empty.
  - rewrite fold_left_app. cbn. by apply loop_inv_step.
Qed.

(** What the whole function establishes for the entry of a date. *)
Lemma buildDailyHRSummary_lookup records d s :
  buildDailyHRSummary records !! d = Some s ->
  exists s0,
    summary_inv d records s0 /\ s = resting_fallback s0.
Proof.
  unfold buildDailyHRSummary. rewrite lookup_fmap. intros H.
  pose proof (loop_inv_fold records d) as Hinv.
  destruct (fold_left summary_step records ∅ !! d) as [s0|]; [|discriminate].
  cbn in H. injection H as <-. exists s0. split; [exact Hinv|reflexivity].
Qed.

(** C8: for every record array and every date of the resulting map, the
    day's [min] is the least heart rate of the date; when the date has no
    sample with time in [02:00, 05:00), [resting] is that [min]; when it
    has some, [resting] is the least heart rate among them. *)
Theorem C8_resting_rule
  (records : list HeartRateRecord) (d : string) (s : DailyHRSummary.t) :
  buildDailyHRSummary records !! d = Some s ->
  is_min_of (DailyHRSummary.min s) (day_rates d records)
  /\ (night_rates d records = [] ->
      DailyHRSummary.resting s = Fin (DailyHRSummary.min s))
  /\ (night_rates d records <> [] ->
      exists r, DailyHRSummary.resting s = Fin r
                /\ is_min_of r (night_rates d records)).
Proof.
  intros H. apply buildDailyHRSummary_lookup in H as (s0 & Hinv & ->).
  destruct Hinv as [Hmin _ Hrest]. unfold resting_fallback.
  destruct (DailyHRSummary.resting s0) as [r|] eqn:Hr; cbn.
  - split; [exact Hmin|]. split.
    + intros Hnil. destruct Hrest as [Hin _]. rewrite Hnil in Hin.
      by apply elem_of_nil in Hin.
    + intros _. exists r. rewrite Hr. split; [reflexivity|exact Hrest].
  - split; [exact Hmin|]. split.
    + intros _. reflexivity.
    + intros Hne. contradiction.
Qed.

Lemma C8_resting_rule_witness :
  buildDailyHRSummary two_days !! "2025-06-02" = Some second_day_summary
  /\ night_rates "2025-06-02" two_days = []
  /\ DailyHRSummary.resting second_day_summary
     = Fin (DailyHRSummary.min second_day_summary).
Proof.
  assert (buildDailyHRSummary two_days !! "2025-06-02"
          = Some second_day_summary) as H by (vm_compute; reflexivity).
  assert (night_rates "2025-06-02" two_days = []) as Hn
    by (vm_compute; reflexivity).
  split; [exact H|]. split; [exact Hn|].
  destruct (C8_resting_rule two_days "2025-06-02" second_day_summary H)
    as (_ & Hfallback & _).
  exact (Hfallback Hn).
Defined.




End IndexerFacts.

(** ** Orchestrator *)

Module ComputeScoresFacts.
Import JS ComputeScores Samples.
Open Scope Q_scope.

Lemma vo2max_pass_empty : vo2max_pass ∅ = None.
Proof. reflexivity. Qed.

(** C6: when the daily heart-rate summary index is empty,
    [computeAllScores] returns no VO2 max value ([null]); it is a total
    function, so nothing is raised. *)
Theorem C6_no_heart_rate_no_vo2max
  (getHours getMinutes : string -> Q) (localeCompare : string -> string -> Q)
  (input : ScoreInput) :
  dailyHRSummary input = ∅ ->
  computedVO2Max (computeAllScores getHours getMinutes localeCompare input)
  = None.
Proof.
  intros Hempty. unfold computeAllScores. cbn [computedVO2Max].
  rewrite Hempty. apply vo2max_pass_empty.
Qed.

Lemma C6_no_heart_rate_no_vo2max_witness :
  dailyHRSummary sleep_only_input = ∅
  /\ computedVO2Max
       (computeAllScores wall_clock_hours wall_clock_minutes JSArray.default_cmp
          sleep_only_input)
     = None.
Proof.
  split; [reflexivity|].
  apply (C6_no_heart_rate_no_vo2max wall_clock_hours wall_clock_minutes
           JSArray.default_cmp sleep_only_input).
  reflexivity.
Defined.

(** With no heart-rate record at all, the indexes the loaders build are
    empty and so is every heart-rate-derived output. *)
Lemma no_records_indexes :
  Indexer.buildHeartRateByDay [] = ∅ /\ Indexer.buildDailyHRSummary [] = ∅.
Proof.
  split; [reflexivity|].
  unfold Indexer.buildDailyHRSummary. cbn. apply fmap_empty.
Qed.

(** The strain, recovery and VO2 max outputs do not depend on the host
    at all; only the sleep score reads the clock and the collation. *)
Lemma host_independent_outputs
  (getHours1 getMinutes1 getHours2 getMinutes2 : string -> Q)
  (localeCompare1 localeCompare2 : string -> string -> Q)
  (input : ScoreInput) :
  let run1 := computeAllScores getHours1 getMinutes1 localeCompare1 input in
  let run2 := computeAllScores getHours2 getMinutes2 localeCompare2 input in
  computedStrain run1 = computedStrain run2
  /\ computedRecovery run1 = computedRecovery run2
  /\ computedVO2Max run1 = computedVO2Max run2.
Proof. cbn. repeat split. Qed.

End ComputeScoresFacts.

(** ** Runs of the orchestrator on a machine *)

Module MachineFacts.
Import JS ComputeScores Machine.
Open Scope Q_scope.

Section World.

Context {world : Type}.

Lemma returns_ret {A : Type} (a : A) : returns (world := world) (ret a) a.
Proof. intros w. reflexivity. Qed.

Lemma returns_bind {A B : Type} (m : run world A) (f : A -> run world B)
  (a : A) (b : B) :
  returns m a -> returns (f a) b -> returns (bind m f) b.
Proof.
  intros Hm Hf w. unfold bind.
  specialize (Hm w). destruct (m w) as [a' w']. cbn in Hm. subst a'.
  apply Hf.
Qed.

Lemma map_run_returns {A B : Type} (f : A -> run world B) (g : A -> B)
  (l : list A) :
  (forall a, returns (f a) (g a)) -> returns (map_run f l) (map g l).
Proof.
  intros Hf. induction l as [|a l IH]; cbn [map_run map].
  - apply returns_ret.
  - eapply returns_bind; [apply Hf|].
    eapply returns_bind; [exact IH|]. apply returns_ret.
Qed.

Lemma fold_run_returns {A B : Type} (f : A -> B -> run world A)
  (g : A -> B -> A) (l : list B) :
  (forall a b, returns (f a b) (g a b)) ->
  forall a, returns (fold_run f l a) (fold_left g l a).
Proof.
  intros Hf. induction l as [|b l IH]; intros a; cbn [fold_run fold_left].
  - apply returns_ret.
  - eapply returns_bind; [apply Hf|]. apply IH.
Qed.

Lemma insert_by_returns {A : Type} (cmp : A -> A -> run world Q)
  (cmp' : A -> A -> Q) (x : A) (l : list A) :
  (forall a b, returns (cmp a b) (cmp' a b)) ->
  returns (insert_by cmp x l) (JSArray.insert_by cmp' x l).
Proof.
  intros Hcmp. induction l as [|y l IH];
    cbn [insert_by JSArray.insert_by].
  - apply returns_ret.
  - eapply returns_bind; [apply Hcmp|].
    destruct (gtb (cmp' x y) 0).
    + eapply returns_bind; [exact IH|]. apply returns_ret.
    + apply returns_ret.
Qed.

Lemma sort_by_returns {A : Type} (cmp : A -> A -> run world Q)
  (cmp' : A -> A -> Q) (l : list A) :
  (forall a b, returns (cmp a b) (cmp' a b)) ->
  returns (sort_by cmp l) (JSArray.sort_by cmp' l).
Proof.
  intros Hcmp. unfold JSArray.sort_by.
  induction l as [|x l IH]; cbn [sort_by foldr].
  - apply returns_ret.
  - eapply returns_bind; [exact IH|]. by apply insert_by_returns.
Qed.

(** On a host that answers as the functions [getHours'],
    [getMinutes'] and [localeCompare'] do, in every state of the
    machine, each computation returns what the engine of the same name
    computes from these functions. *)
Section Answers.

Variable the_host : host world.
Variable getHours' getMinutes' : string -> Q.
Variable localeCompare' : string -> string -> Q.
Hypothesis hours_answer :
  forall iso, returns (getHours the_host iso) (getHours' iso).
Hypothesis minutes_answer :
  forall iso, returns (getMinutes the_host iso) (getMinutes' iso).
Hypothesis compare_answer :
  forall a b, returns (localeCompare the_host a b) (localeCompare' a b).

Lemma bedtimeHour_returns (iso : string) :
  returns (bedtimeHour the_host iso)
          (SleepScore.bedtimeHour getHours' getMinutes' iso).
Proof.
  unfold bedtimeHour, SleepScore.bedtimeHour.
  eapply returns_bind; [apply hours_answer|].
  eapply returns_bind; [apply minutes_answer|].
  apply returns_ret.
Qed.

Lemma scoreConsistency_returns (night : Sleep.t) (prevNights : list Sleep.t) :
  returns (scoreConsistency the_host night prevNights)
          (SleepScore.scoreConsistency getHours' getMinutes' night prevNights).
Proof.
  unfold scoreConsistency, SleepScore.scoreConsistency.
  destruct (length prevNights <? 3)%nat; [apply returns_ret|].
  eapply returns_bind.
  { apply (map_run_returns _
             (fun n => SleepScore.bedtimeHour getHours' getMinutes'
                         (Sleep.start n))).
    intros n. apply bedtimeHour_returns. }
  eapply returns_bind; [apply bedtimeHour_returns|].
  apply returns_ret.
Qed.

Lemma computeEnhancedSleepScore_returns
  (night : Sleep.t) (prevNights : list Sleep.t) :
  returns (computeEnhancedSleepScore the_host night prevNights)
          (SleepScore.computeEnhancedSleepScore getHours' getMinutes'
             night prevNights).
Proof.
  unfold computeEnhancedSleepScore, SleepScore.computeEnhancedSleepScore.
  eapply returns_bind; [apply scoreConsistency_returns|].
  apply returns_ret.
Qed.

Lemma sleep_pass_returns (sleep : list Sleep.t) :
  returns (sleep_pass the_host sleep)
          (ComputeScores.sleep_pass getHours' getMinutes' localeCompare'
             sleep).
Proof.
  unfold sleep_pass, ComputeScores.sleep_pass.
  eapply returns_bind.
  { apply (sort_by_returns _
             (fun a b => localeCompare' (Sleep.date a) (Sleep.date b))).
    intros a b. apply compare_answer. }
  apply fold_run_returns. intros acc i.
  destruct (_ !! i) as [night|]; [|apply returns_ret].
  eapply returns_bind; [apply computeEnhancedSleepScore_returns|].
  apply returns_ret.
Qed.

Lemma computeAllScores_returns (input : ScoreInput) :
  returns (Machine.computeAllScores the_host input)
          (ComputeScores.computeAllScores getHours' getMinutes'
             localeCompare' input).
Proof.
  unfold Machine.computeAllScores, ComputeScores.computeAllScores.
  eapply returns_bind; [apply sleep_pass_returns|].
  apply returns_ret.
Qed.

End Answers.
End World.

(** The sleep pass does consult the host: on the counting machine a
    fortnight of nights leaves the state changed. *)
Lemma sleep_pass_consults_host :
  snd (sleep_pass counting_host UseComputedStats.good_fortnight 0%nat)
  <> 0%nat.
Proof. vm_compute. discriminate. Qed.



End MachineFacts.

(** ** Numeric built-ins, continued *)

Module JSMore.
Import JS.
Open Scope Q_scope.

Lemma ltb_cases a b : (ltb a b = true /\ a < b) \/ (ltb a b = false /\ b <= a).
Proof.
  unfold ltb. destruct (Qle_bool b a) eqn:E; cbn.
  - right. split; [reflexivity|by apply Qle_bool_iff].
  - left. split; [reflexivity|]. apply Qnot_le_lt. intros H.
    apply Qle_bool_iff in H. congruence.
Qed.

Lemma geb_cases a b : (geb a b = true /\ b <= a) \/ (geb a b = false /\ a < b).
Proof.
  unfold geb. destruct (Qle_bool b a) eqn:E.
  - left. split; [reflexivity|by apply Qle_bool_iff].
  - right. split; [reflexivity|]. apply Qnot_le_lt. intros H.
    apply Qle_bool_iff in H. congruence.
Qed.

Lemma leb_cases a b : (leb a b = true /\ a <= b) \/ (leb a b = false /\ b < a).
Proof. apply geb_cases. Qed.

Lemma gtb_cases a b : (gtb a b = true /\ b < a) \/ (gtb a b = false /\ a <= b).
Proof. apply ltb_cases. Qed.

Lemma num_plus (a b : nat) : num (a + b) == num a + num b.
Proof.
  unfold num. rewrite Nat2Z.inj_add, inject_Z_plus. reflexivity.
Qed.

Lemma num_pos (n : nat) : (0 < n)%nat -> 0 < num n.
Proof.
  intros H. unfold num. change 0 with (inject_Z 0). rewrite <- Zlt_Qlt. lia.
Qed.

Lemma Math_round_mono x y : x <= y -> Math_round x <= Math_round y.
Proof.
  intros H. unfold Math_round. rewrite <- Zle_Qle.
  apply Qfloor_resp_le. lra.
Qed.

(** [Math.round] of a value in [[lo, hi]] with integer bounds stays in
    [[lo, hi]]. *)
Lemma Math_round_between (lo hi : Z) (x : Q) :
  inject_Z lo <= x -> x <= inject_Z hi ->
  inject_Z lo <= Math_round x /\ Math_round x <= inject_Z hi.
Proof.
  intros Hlo Hhi. unfold Math_round.
  pose proof (Qfloor_le (x + (1 # 2))) as H1.
  pose proof (Qlt_floor (x + (1 # 2))) as H2.
  rewrite inject_Z_plus in H2. change (inject_Z 1) with 1 in H2.
  rewrite <- !Zle_Qle.
  assert (inject_Z (lo - 1) < inject_Z (Qfloor (x + (1 # 2)))) as A.
  { unfold Z.sub. rewrite inject_Z_plus.
    change (inject_Z (- (1))) with (- (1))%Q. lra. }
  assert (inject_Z (Qfloor (x + (1 # 2))) < inject_Z (hi + 1)) as B.
  { rewrite inject_Z_plus. change (inject_Z 1) with 1. lra. }
  rewrite <- Zlt_Qlt in A, B. lia.
Qed.

Lemma Math_min_mono a b c d : a <= c -> b <= d -> Math_min a b <= Math_min c d.
Proof.
  intros H1 H2.
  destruct (JSFacts.Math_min_spec a b) as [[? ->]|[? ->]],
           (JSFacts.Math_min_spec c d) as [[? ->]|[? ->]]; lra.
Qed.

Lemma Math_max_mono a b c d : a <= c -> b <= d -> Math_max a b <= Math_max c d.
Proof.
  intros H1 H2.
  destruct (JSFacts.Math_max_spec a b) as [[? ->]|[? ->]],
           (JSFacts.Math_max_spec c d) as [[? ->]|[? ->]]; lra.
Qed.

Lemma Math_min_bounds a b : Math_min a b <= a /\ Math_min a b <= b.
Proof. destruct (JSFacts.Math_min_spec a b) as [[? ->]|[? ->]]; lra. Qed.

Lemma Math_max_bounds a b : a <= Math_max a b /\ b <= Math_max a b.
Proof. destruct (JSFacts.Math_max_spec a b) as [[? ->]|[? ->]]; lra. Qed.

(** [x / c * 100] is monotone in [x] for a positive [c]. *)
Lemma scale_mono (a b c : Q) : 0 < c -> a <= b -> a / c * 100 <= b / c * 100.
Proof.
  intros Hc Hab. apply Qmult_le_compat_r; [|discriminate].
  unfold Qdiv. apply Qmult_le_compat_r; [exact Hab|].
  apply Qinv_le_0_compat. lra.
Qed.

(** The clamp [Math.max(0, Math.min(100, x))]. *)
Lemma clamp_range x : 0 <= Math_max 0 (Math_min 100 x) <= 100.
Proof.
  destruct (JSFacts.Math_min_spec 100 x) as [[? ->]|[? ->]];
    [destruct (JSFacts.Math_max_spec 0 100) as [[? ->]|[? ->]]
    |destruct (JSFacts.Math_max_spec 0 x) as [[? ->]|[? ->]]]; lra.
Qed.

Lemma clamp_whole (z : Z) :
  exists k, Math_max 0 (Math_min 100 (inject_Z z)) = inject_Z k.
Proof.
  unfold Math_max, Math_min.
  destruct (Qle_bool 100 (inject_Z z));
    [destruct (Qle_bool 0 100); [by exists 100%Z|by exists 0%Z]|].
  destruct (Qle_bool 0 (inject_Z z)); [by exists z|by exists 0%Z].
Qed.

End JSMore.

(** ** Strain engine, continued *)

Module StrainMore.
Import JS JSFacts JSMore DataTransforms Strain StrainSpec Samples StrainFacts.
Open Scope Q_scope.

Lemma Rround_mono (x y : R) : (x <= y)%R -> (Rround x <= Rround y)%Z.
Proof.
  intros Hxy. unfold Rround.
  destruct (base_Int_part (x + / 2)) as [Hx _].
  destruct (base_Int_part (y + / 2)) as [_ Hy].
  assert (IZR (Int_part (x + / 2)) < IZR (Int_part (y + / 2) + 1))%R as H.
  { rewrite plus_IZR. Lra.lra. }
  apply lt_IZR in H. lia.
Qed.

Lemma exp_curve_mono (n m : nat) :
  (n <= m)%nat ->
  (exp (- IZR (Z.of_nat m) / 100) <= exp (- IZR (Z.of_nat n) / 100))%R.
Proof.
  intros Hnm.
  assert (IZR (Z.of_nat n) <= IZR (Z.of_nat m))%R as H by (apply IZR_le; lia).
  destruct (Req_dec (IZR (Z.of_nat n)) (IZR (Z.of_nat m))) as [->|Hne].
  - apply Rle_refl.
  - left. apply exp_increasing. Lra.lra.
Qed.

Lemma strain_tenths_mono (n m : nat) :
  (n <= m)%nat -> (strain_tenths n <= strain_tenths m)%Z.
Proof.
  intros Hnm. unfold strain_tenths. apply Rround_mono.
  pose proof (exp_curve_mono n m Hnm). Lra.lra.
Qed.

Lemma strain_tenths_0 : strain_tenths 0 = 0%Z.
Proof.
  unfold strain_tenths. change (Z.of_nat 0) with 0%Z.
  replace (Ropp (IZR 0) / 100)%R with 0%R by Lra.lra.
  rewrite exp_0.
  assert (0 <= Rround (21 * (1 - 1) * 10))%Z
    by (apply Rround_lower; Lra.lra).
  assert (Rround (21 * (1 - 1) * 10) <= 0)%Z
    by (apply Rround_upper; Lra.lra).
  lia.
Qed.

Lemma strain_tenths_pos (n : nat) : (1 <= n)%nat -> (1 <= strain_tenths n)%Z.
Proof.
  intros Hn. apply Z.le_trans with (strain_tenths 1).
  - unfold strain_tenths. apply Rround_reach.
    change (Z.of_nat 1) with 1%Z.
    replace (Ropp (IZR 1) / 100)%R with (Ropp (1 / 100)) by Lra.lra.
    rewrite exp_Ropp.
    assert (1 + 1 / 100 < exp (1 / 100))%R as He
      by (apply exp_ineq1; Lra.lra).
    assert (/ exp (1 / 100) < / (1 + 1 / 100))%R as Hinv
      by (apply Rinv_lt_contravar; Lra.nra).
    assert (/ (1 + 1 / 100) = 100 / 101)%R as E by Lra.lra.
    Lra.lra.
  - by apply strain_tenths_mono.
Qed.

Lemma rawTRIMP_loop records maxHR :
  ComputedDailyStrain.rawTRIMP (computeDailyStrain records maxHR)
  = raw_impulse (fold_left (zone_step maxHR) records (mkCounters 0 0 0 0)).
Proof. reflexivity. Qed.

Lemma zone_step_impulse maxHR c rec :
  (raw_impulse c <= raw_impulse (zone_step maxHR c rec))%nat
  /\ (raw_impulse (zone_step maxHR c rec) = raw_impulse c
      <-> HeartRateAuto.heartRate rec / maxHR < 0.5).
Proof.
  unfold zone_step, raw_impulse, geb.
  destruct (Qle_bool 0.85 (HeartRateAuto.heartRate rec / maxHR)) eqn:E1;
    [apply Qle_bool_iff in E1; cbn; split; [lia|split; [lia|lra]]|].
  destruct (Qle_bool 0.7 (HeartRateAuto.heartRate rec / maxHR)) eqn:E2;
    [apply Qle_bool_iff in E2; cbn; split; [lia|split; [lia|lra]]|].
  destruct (Qle_bool 0.5 (HeartRateAuto.heartRate rec / maxHR)) eqn:E3;
    [apply Qle_bool_iff in E3; cbn; split; [lia|split; [lia|lra]]|].
  cbn. split; [lia|]. split; [intros _|reflexivity].
  apply Qnot_le_lt. intros H. apply Qle_bool_iff in H. congruence.
Qed.

Lemma zone_loop_impulse_le maxHR records c :
  (raw_impulse c <= raw_impulse (fold_left (zone_step maxHR) records c))%nat.
Proof.
  revert c. induction records as [|rec records IH]; intros c; cbn.
  - lia.
  - destruct (zone_step_impulse maxHR c rec) as [Hle _].
    specialize (IH (zone_step maxHR c rec)). lia.
Qed.

Lemma zone_loop_impulse_same maxHR records c :
  raw_impulse (fold_left (zone_step maxHR) records c) = raw_impulse c
  <-> Forall (fun rec => HeartRateAuto.heartRate rec / maxHR < 0.5) records.
Proof.
  revert c. induction records as [|rec records IH]; intros c; cbn.
  - split; [intros _; constructor|reflexivity].
  - destruct (zone_step_impulse maxHR c rec) as [Hle Hsame].
    pose proof (zone_loop_impulse_le maxHR records (zone_step maxHR c rec)).
    rewrite Forall_cons. rewrite <- (IH (zone_step maxHR c rec)).
    rewrite <- Hsame. lia.
Qed.

(** X1: the strain never decreases when the raw impulse increases. *)
Theorem X1_strain_monotone
  (records1 records2 : list HeartRateRecord) (maxHR1 maxHR2 : Q) :
  (ComputedDailyStrain.rawTRIMP (computeDailyStrain records1 maxHR1)
   <= ComputedDailyStrain.rawTRIMP (computeDailyStrain records2 maxHR2))%nat ->
  ComputedDailyStrain.strain (computeDailyStrain records1 maxHR1)
  <= ComputedDailyStrain.strain (computeDailyStrain records2 maxHR2).
Proof.
  intros Hle. rewrite !strain_of_tenths.
  apply strain_tenths_mono in Hle. rewrite Zle_Qle in Hle.
  apply Qmult_le_compat_r; [exact Hle|discriminate].
Qed.

Lemma X1_strain_monotone_witness :
  (ComputedDailyStrain.rawTRIMP (computeDailyStrain [peak_sample] 190)
   <= ComputedDailyStrain.rawTRIMP (computeDailyStrain zone_samples 190))%nat
  /\ ComputedDailyStrain.strain (computeDailyStrain [peak_sample] 190)
     <= ComputedDailyStrain.strain (computeDailyStrain zone_samples 190).
Proof.
  assert (ComputedDailyStrain.rawTRIMP (computeDailyStrain [peak_sample] 190)
          <= ComputedDailyStrain.rawTRIMP
               (computeDailyStrain zone_samples 190))%nat as H.
  { rewrite !rawTRIMP_loop. vm_compute. lia. }
  split; [exact H|].
  exact (X1_strain_monotone [peak_sample] zone_samples 190 190 H).
Defined.

(** X2: for a positive maximum heart rate the strain is 0 exactly when
    every sample is below half of the maximum (the empty array
    included); a single sample at or above it already gives a positive
    strain. *)
Theorem X2_strain_zero_iff_all_rest
  (records : list HeartRateRecord) (maxHR : Q) :
  0 < maxHR ->
  (ComputedDailyStrain.strain (computeDailyStrain records maxHR) == 0
   <-> Forall (fun rec => HeartRateAuto.heartRate rec < 0.5 * maxHR) records).
Proof.
  intros Hpos.
  assert (Forall (fun rec => HeartRateAuto.heartRate rec < 0.5 * maxHR) records
          <-> Forall (fun rec => HeartRateAuto.heartRate rec / maxHR < 0.5)
                     records) as ->.
  { apply Forall_iff. intros rec. split; intros H.
    - apply Qlt_shift_div_r; [exact Hpos|exact H].
    - apply (Qmult_lt_r _ _ (/ maxHR)); [by apply Qinv_lt_0_compat|].
      unfold Qdiv in H.
      assert (0.5 * maxHR * / maxHR == 0.5) as -> by (field; lra).
      exact H. }
  rewrite <- (zone_loop_impulse_same maxHR records (mkCounters 0 0 0 0)).
  rewrite strain_of_tenths, rawTRIMP_loop.
  change (raw_impulse (mkCounters 0 0 0 0)) with 0%nat.
  set (n := raw_impulse _). split.
  - intros Hz. destruct n as [|n]; [reflexivity|exfalso].
    pose proof (strain_tenths_pos (S n) ltac:(lia)) as H1.
    rewrite Zle_Qle in H1. change (inject_Z 1) with 1 in H1.
    set (x := inject_Z (strain_tenths (S n))) in *.
    assert (x == x / 10 * 10) as Hx by (field; discriminate).
    rewrite Hz in Hx. lra.
  - intros ->. rewrite strain_tenths_0. reflexivity.
Qed.

Lemma X2_strain_zero_iff_all_rest_witness :
  0 < 190
  /\ ~ ComputedDailyStrain.strain (computeDailyStrain easy_day 190) == 0.
Proof.
  split; [reflexivity|].
  intros Hz.
  apply (X2_strain_zero_iff_all_rest easy_day 190) in Hz; [|reflexivity].
  apply Forall_app in Hz as [_ Hlast].
  apply Forall_cons in Hlast as [Hlt _].
  vm_compute in Hlt. discriminate Hlt.
Defined.

(** X3: reading more samples never lowers the strain. *)
Theorem X3_more_samples_no_less_strain
  (records more : list HeartRateRecord) (maxHR : Q) :
  ComputedDailyStrain.strain (computeDailyStrain records maxHR)
  <= ComputedDailyStrain.strain (computeDailyStrain (records ++ more) maxHR).
Proof.
  rewrite !strain_of_tenths.
  assert (ComputedDailyStrain.rawTRIMP (computeDailyStrain records maxHR)
          <= ComputedDailyStrain.rawTRIMP
               (computeDailyStrain (records ++ more) maxHR))%nat as Hle.
  { rewrite !rawTRIMP_loop, fold_left_app. apply zone_loop_impulse_le. }
  apply strain_tenths_mono in Hle. rewrite Zle_Qle in Hle.
  apply Qmult_le_compat_r; [exact Hle|discriminate].
Qed.

(** X5: a higher strain never maps to a lower level. *)
Theorem X5_strain_level_monotone (strain1 strain2 : Q) :
  strain1 <= strain2 ->
  (level_rank (getStrainLevel strain1)
   <= level_rank (getStrainLevel strain2))%nat.
Proof.
  intros Hle. unfold getStrainLevel.
  repeat match goal with
         | |- context [ltb ?a ?b] =>
             destruct (ltb_cases a b) as [[E ?]|[E ?]]; rewrite E; clear E;
             cbv iota
         end;
    cbn; try lia; exfalso; lra.
Qed.

Lemma X5_strain_level_monotone_witness :
  6.9 <= 7
  /\ (level_rank (getStrainLevel 6.9) <= level_rank (getStrainLevel 7))%nat.
Proof.
  split; [discriminate|].
  apply (X5_strain_level_monotone 6.9 7). discriminate.
Defined.

End StrainMore.

(** ** Sorting and medians *)

Module MedianFacts.
Import JS JSFacts JSMore JSArray MedianSpec.
Open Scope Q_scope.

Lemma insert_by_perm {A : Type} (cmp : A -> A -> Q) (x : A) (l : list A) :
  insert_by cmp x l ≡ₚ x :: l.
Proof.
  induction l as [|y l IH]; cbn; [done|].
  destruct (gtb (cmp x y) 0); [|done].
  rewrite IH. apply perm_swap.
Qed.

(** [arr.sort(cmp)] rearranges the array. *)
Lemma sort_by_perm {A : Type} (cmp : A -> A -> Q) (l : list A) :
  sort_by cmp l ≡ₚ l.
Proof.
  induction l as [|x l IH]; cbn; [done|].
  rewrite insert_by_perm. by rewrite IH.
Qed.

Lemma sort_by_length {A : Type} (cmp : A -> A -> Q) (l : list A) :
  length (sort_by cmp l) = length l.
Proof. by rewrite sort_by_perm. Qed.

Lemma insert_numeric_sorted (x : Q) (l : list Q) :
  StronglySorted Qle l -> StronglySorted Qle (insert_by numeric_cmp x l).
Proof.
  induction 1 as [|y l Hs IH Hall]; cbn.
  - repeat constructor.
  - unfold numeric_cmp at 1.
    destruct (gtb_cases (x - y) 0) as [[-> Hgt]|[-> Hle]].
    + constructor; [exact IH|].
      rewrite insert_by_perm. constructor; [lra|exact Hall].
    + constructor; [by constructor|].
      constructor; [lra|].
      eapply Forall_impl; [exact Hall|]. cbn. intros z Hz. lra.
Qed.

(** [arr.sort((a, b) => a - b)] is ascending. *)
Lemma sort_numeric_sorted (l : list Q) :
  StronglySorted Qle (sort_by numeric_cmp l).
Proof.
  induction l as [|x l IH]; cbn; [constructor|].
  by apply insert_numeric_sorted.
Qed.

Lemma at_index_elem (l : list Q) (i : nat) :
  (i < length l)%nat -> at_index l i ∈ l.
Proof.
  intros Hi. unfold at_index. apply list_elem_of_In, nth_In. exact Hi.
Qed.

(** In an ascending array the values up to index [k] are at most
    [s[k]] and the values from index [k] on are at least [s[k]]. *)
Lemma sorted_split (s : list Q) (k : nat) :
  StronglySorted Qle s -> (k < length s)%nat ->
  (forall x, x ∈ take (S k) s -> x <= at_index s k)
  /\ (forall x, x ∈ drop k s -> at_index s k <= x).
Proof.
  intros Hs. revert k. induction Hs as [|a s Hs IH Hall]; intros k Hk.
  - cbn in Hk. lia.
  - rewrite Forall_forall in Hall. destruct k as [|k].
    + cbn. split; intros x Hx.
      * apply list_elem_of_singleton in Hx. subst x. lra.
      * apply elem_of_cons in Hx as [->|Hx]; [lra|by apply Hall].
    + cbn in Hk. destruct (IH k ltac:(lia)) as [IH1 IH2].
      change (at_index (a :: s) (S k)) with (at_index s k).
      split; intros x Hx.
      * change (take (S (S k)) (a :: s)) with (a :: take (S k) s) in Hx.
        apply elem_of_cons in Hx as [->|Hx]; [|by apply IH1].
        apply Hall, at_index_elem. lia.
      * change (drop (S k) (a :: s)) with (drop k s) in Hx. by apply IH2.
Qed.

Lemma filter_all {A : Type} (P : A -> Prop) `{!forall x, Decision (P x)}
  (l : list A) :
  (forall x, x ∈ l -> P x) -> filter P l = l.
Proof.
  induction l as [|x l IH]; intros Hall; [done|].
  rewrite filter_cons_True by (apply Hall; left).
  f_equal. apply IH. intros y Hy. apply Hall. by right.
Qed.

Lemma filter_count_prefix {A : Type} (P : A -> Prop)
  `{!forall x, Decision (P x)} (l : list A) (k : nat) :
  (forall x, x ∈ take k l -> P x) -> (k <= length l)%nat ->
  (k <= length (filter P l))%nat.
Proof.
  intros Hall Hk. rewrite <- (take_drop k l), filter_app, length_app.
  rewrite (filter_all P (take k l) Hall), length_take. lia.
Qed.

Lemma filter_count_suffix {A : Type} (P : A -> Prop)
  `{!forall x, Decision (P x)} (l : list A) (k : nat) :
  (forall x, x ∈ drop k l -> P x) ->
  (length l - k <= length (filter P l))%nat.
Proof.
  intros Hall. rewrite <- (take_drop k l) at 2.
  rewrite filter_app, length_app.
  rewrite (filter_all P (drop k l) Hall), length_drop. lia.
Qed.

Lemma is_median_perm (m : Q) (l l' : list Q) :
  l ≡ₚ l' -> is_median m l -> is_median m l'.
Proof.
  intros Hp [H1 H2]. unfold is_median. by rewrite <- !Hp.
Qed.

Lemma odd_or_even (n : nat) :
  ((n mod 2 =? 1)%nat = true /\ n = (2 * (n / 2) + 1)%nat)
  \/ ((n mod 2 =? 1)%nat = false /\ n = (2 * (n / 2))%nat).
Proof.
  pose proof (Nat.div_mod_eq n 2) as E.
  pose proof (Nat.mod_upper_bound n 2 ltac:(lia)) as Hlt.
  destruct (n mod 2 =? 1)%nat eqn:Hm.
  - left. apply Nat.eqb_eq in Hm. lia.
  - right. apply Nat.eqb_neq in Hm. lia.
Qed.

(** The median of recovery.ts on an ascending non-empty array. *)
Lemma recovery_median_sorted (s : list Q) :
  StronglySorted Qle s -> s <> [] ->
  is_median (Recovery.median s) s /\ within_values (Recovery.median s) s.
Proof.
  intros Hs Hne. unfold Recovery.median.
  assert (0 < length s)%nat as Hlen by (destruct s; [done|cbn; lia]).
  destruct (length s =? 0)%nat eqn:E0; [apply Nat.eqb_eq in E0; lia|].
  clear E0. set (n := length s) in *. set (mid := (n / 2)%nat).
  destruct (odd_or_even n) as [[-> Hn]|[-> Hn]]; fold mid in Hn.
  - destruct (sorted_split s mid Hs ltac:(lia)) as [Hlow Hhigh].
    split; [split|].
    + pose proof (filter_count_prefix (fun x => x <= at_index s mid) s
                    (S mid) Hlow ltac:(lia)). lia.
    + pose proof (filter_count_suffix (fun x => at_index s mid <= x) s
                    mid Hhigh). lia.
    + exists (at_index s mid), (at_index s mid).
      pose proof (at_index_elem s mid ltac:(lia)).
      repeat split; try done; lra.
  - assert (0 < mid)%nat as Hmid by lia.
    destruct (sorted_split s (mid - 1) Hs ltac:(lia)) as [Hlow1 Hhigh1].
    destruct (sorted_split s mid Hs ltac:(lia)) as [_ Hhigh].
    replace (S (mid - 1)) with mid in Hlow1 by lia.
    assert (at_index s (mid - 1) <= at_index s mid) as Hord.
    { apply Hhigh1. apply list_elem_of_lookup. exists 1%nat.
      rewrite lookup_drop. replace (mid - 1 + 1)%nat with mid by lia.
      unfold at_index. rewrite nth_lookup.
      destruct (lookup_lt_is_Some_2 s mid ltac:(lia)) as [x ->]. done. }
    set (a := at_index s (mid - 1)) in *. set (b := at_index s mid) in *.
    assert (a <= (a + b) / 2) as Ha by (apply Qle_shift_div_l; lra).
    assert ((a + b) / 2 <= b) as Hb by (apply Qle_shift_div_r; lra).
    split; [split|].
    + assert (forall x, x ∈ take mid s -> x <= (a + b) / 2) as H.
      { intros x Hx. specialize (Hlow1 x Hx). lra. }
      pose proof (filter_count_prefix (fun x => x <= (a + b) / 2) s
                    mid H ltac:(lia)). lia.
    + assert (forall x, x ∈ drop mid s -> (a + b) / 2 <= x) as H.
      { intros x Hx. specialize (Hhigh x Hx). lra. }
      pose proof (filter_count_suffix (fun x => (a + b) / 2 <= x) s mid H).
      lia.
    + exists a, b.
      pose proof (at_index_elem s (mid - 1) ltac:(lia)).
      pose proof (at_index_elem s mid ltac:(lia)).
      repeat split; done.
Qed.

(** Sorting first: the median of any non-empty array. *)
Lemma recovery_median_of_sort (l : list Q) :
  l <> [] ->
  is_median (Recovery.median (sort_by numeric_cmp l)) l
  /\ within_values (Recovery.median (sort_by numeric_cmp l)) l.
Proof.
  intros Hne.
  assert (sort_by numeric_cmp l <> []) as Hne'.
  { intros E. apply Hne. apply Permutation_nil_r. rewrite <- E.
    symmetry. apply sort_by_perm. }
  destruct (recovery_median_sorted _ (sort_numeric_sorted l) Hne')
    as [Hmed (lo & hi & Hlo & Hhi & Hb)].
  split.
  - eapply is_median_perm; [apply sort_by_perm|exact Hmed].
  - exists lo, hi. rewrite (sort_by_perm numeric_cmp l) in Hlo, Hhi. done.
Qed.

End MedianFacts.

(** ** Recovery engine, continued *)

Module RecoveryMore.
Import JS JSFacts JSMore JSArray Recovery RecoverySpec MedianSpec MedianFacts
  Samples.
Open Scope Q_scope.

(** X6: whatever the inputs (missing ones included), the recovery score
    is a whole number between 0 and 100, and the level is green exactly
    from 67, yellow from 34 to below 67, red below 34. *)
Theorem X6_recovery_score_range
  (date : string) (rhrBpm : option Q) (rhrBaseline : Q)
  (sleepNight : option Sleep.t) (priorStrain : option ComputedDailyStrain.t) :
  let r := computeDailyRecovery date rhrBpm rhrBaseline sleepNight priorStrain in
  (0 <= ComputedRecoveryScore.score r <= 100)
  /\ (exists k : Z, ComputedRecoveryScore.score r = inject_Z k)
  /\ (ComputedRecoveryScore.lvl r = ComputedRecoveryScore.green
      <-> 67 <= ComputedRecoveryScore.score r)
  /\ (ComputedRecoveryScore.lvl r = ComputedRecoveryScore.red
      <-> ComputedRecoveryScore.score r < 34).
Proof.
  intros r. unfold r, computeDailyRecovery.
  cbn [ComputedRecoveryScore.score ComputedRecoveryScore.lvl].
  set (raw := _ * 0.4 + _ * 0.4 + _ * 0.2).
  set (score := Math_max 0 (Math_min 100 (Math_round raw))).
  split; [apply clamp_range|]. split; [apply clamp_whole|].
  destruct (geb_cases score 67) as [[-> ?]|[-> ?]];
    [split; split; intros; try discriminate; try reflexivity; lra|].
  destruct (geb_cases score 34) as [[-> ?]|[-> ?]];
    split; split; intros; try discriminate; try reflexivity; lra.
Qed.



(** X8: the nightly resting heart rate is missing exactly when no record
    falls in the window from 02:00 to 05:00; otherwise it is a median of
    the heart rates in the window and lies between two of them. *)
Theorem X8_nightly_resting_hr (hrRecords : list HeartRateRecord) :
  (computeNightlyRestingHR hrRecords = None <-> window_rates hrRecords = [])
  /\ (forall v, computeNightlyRestingHR hrRecords = Some v ->
        is_median v (window_rates hrRecords)
        /\ within_values v (window_rates hrRecords)).
Proof.
  unfold computeNightlyRestingHR, window_rates.
  set (night := List.filter _ hrRecords).
  destruct night as [|r night'] eqn:E; cbn [length Nat.eqb].
  - split; [done|]. intros v Hv. discriminate Hv.
  - split; [split; intros H; discriminate H|].
    intros v Hv. injection Hv as <-.
    apply recovery_median_of_sort. discriminate.
Qed.

(** X9: the resting-HR baseline is 65 for an empty history and otherwise
    a median of the given nightly values, between two of them. *)
Theorem X9_rhr_baseline (nightlyRHRs : list Q) :
  match nightlyRHRs with
  | [] => computeRHRBaseline nightlyRHRs = 65
  | _ :: _ =>
      is_median (computeRHRBaseline nightlyRHRs) nightlyRHRs
      /\ within_values (computeRHRBaseline nightlyRHRs) nightlyRHRs
  end.
Proof.
  destruct nightlyRHRs as [|x l]; [reflexivity|].
  unfold computeRHRBaseline. cbn [length Nat.eqb].
  apply recovery_median_of_sort. discriminate.
Qed.

End RecoveryMore.

(** ** Sleep score engine, continued *)

Module SleepScoreMore.
Import JS JSFacts JSMore JSArray SleepScore RecoverySpec MedianSpec MedianFacts
  SleepScoreSpec Samples.
Open Scope Q_scope.

Lemma sufficiency_range (night : Sleep.t) :
  0 <= asleep night -> 0 <= scoreSufficiency night <= 100.
Proof.
  unfold asleep, scoreSufficiency. intros Ha.
  set (a := _ + _ + _) in *.
  assert (0 <= a / 480 * 100) as H0.
  { pose proof (scale_mono 0 a 480 ltac:(reflexivity) Ha) as H.
    assert (0 / 480 * 100 == 0) as E by reflexivity. lra. }
  destruct (Math_min_spec (a / 480 * 100) 100) as [[? ->]|[? ->]]; lra.
Qed.

Lemma efficiency_range (night : Sleep.t) :
  0 <= asleep night -> 0 <= Sleep.wakeTime night ->
  0 <= scoreEfficiency night <= 100.
Proof.
  unfold asleep, scoreEfficiency. intros Ha Hw.
  set (a := Sleep.deepSleepTime night + Sleep.shallowSleepTime night
            + Sleep.REMTime night) in *.
  set (w := Sleep.wakeTime night) in *.
  destruct (leb_cases (a + w) 0) as [[-> ?]|[-> Hpos]]; [lra|].
  assert (0 <= (a + w - w) / (a + w)) as H0
    by (apply Qle_shift_div_l; lra).
  assert ((a + w - w) / (a + w) <= 1) as H1
    by (apply Qle_shift_div_r; lra).
  split; nra.
Qed.

Lemma deviation_nonneg (x ideal : Q) : 0 < ideal -> 0 <= Math_abs x / ideal.
Proof.
  intros Hi. apply Qle_shift_div_l; [exact Hi|].
  pose proof (Qabs_nonneg x). unfold Math_abs. lra.
Qed.

Lemma stageQuality_range (night : Sleep.t) :
  0 <= scoreStageQuality night <= 100.
Proof.
  unfold scoreStageQuality.
  set (a := Sleep.deepSleepTime night + Sleep.shallowSleepTime night
            + Sleep.REMTime night).
  destruct (leb_cases a 0) as [[-> ?]|[-> Hpos]]; [lra|].
  pose proof (deviation_nonneg (Sleep.deepSleepTime night / a - 0.2) 0.2
                ltac:(reflexivity)).
  pose proof (deviation_nonneg (Sleep.REMTime night / a - 0.25) 0.25
                ltac:(reflexivity)).
  pose proof (deviation_nonneg (Sleep.shallowSleepTime night / a - 0.55) 0.55
                ltac:(reflexivity)).
  match goal with
  | |- context [Math_max 0 ?x] =>
      destruct (Math_max_spec 0 x) as [[? ->]|[? ->]]
  end; lra.
Qed.

Lemma consistency_range
  (getHours getMinutes : string -> Q) (night : Sleep.t)
  (prevNights : list Sleep.t) :
  0 <= scoreConsistency getHours getMinutes night prevNights <= 100.
Proof.
  unfold scoreConsistency.
  destruct (length prevNights <? 3)%nat; [lra|].
  match goal with
  | |- context [Math_abs ?x] =>
      pose proof (Qabs_nonneg x) as Habs; fold (Math_abs x) in Habs
  end.
  match goal with
  | |- context [Math_max 0 ?x] =>
      destruct (Math_max_spec 0 x) as [[? ->]|[? ->]]
  end; lra.
Qed.

(** X10: for a night whose stage minutes are not negative, when the
    local clock reads an hour from 0 to 23 and a minute from 0 to 59 for
    the start of the night and of every previous night (no start is an
    invalid date), each of the four sub-scores lies in [0, 100] and the
    overall sleep score is a whole number in [0, 100]. *)
Theorem X10_sleep_score_ranges
  (getHours getMinutes : string -> Q) (night : Sleep.t)
  (prevNights : list Sleep.t) :
  0 <= Sleep.deepSleepTime night ->
  0 <= Sleep.shallowSleepTime night ->
  0 <= Sleep.REMTime night ->
  0 <= Sleep.wakeTime night ->
  Forall (valid_start getHours getMinutes) (night :: prevNights) ->
  let r := computeEnhancedSleepScore getHours getMinutes night prevNights in
  0 <= ComputedEnhancedSleepScore.sufficiency r <= 100
  /\ 0 <= ComputedEnhancedSleepScore.efficiency r <= 100
  /\ 0 <= ComputedEnhancedSleepScore.stageQuality r <= 100
  /\ 0 <= ComputedEnhancedSleepScore.consistency r <= 100
  /\ 0 <= ComputedEnhancedSleepScore.score r <= 100
  /\ exists k : Z, ComputedEnhancedSleepScore.score r = inject_Z k.
Proof.
  intros Hd Hl Hr Hw _ r.
  assert (0 <= asleep night) as Ha by (unfold asleep; lra).
  pose proof (sufficiency_range night Ha) as H1.
  pose proof (efficiency_range night Ha Hw) as H2.
  pose proof (stageQuality_range night) as H3.
  pose proof (consistency_range getHours getMinutes night prevNights) as H4.
  unfold r, computeEnhancedSleepScore.
  cbn [ComputedEnhancedSleepScore.sufficiency
       ComputedEnhancedSleepScore.efficiency
       ComputedEnhancedSleepScore.stageQuality
       ComputedEnhancedSleepScore.consistency
       ComputedEnhancedSleepScore.score].
  repeat (split; [done|]).
  split; [|eexists; reflexivity].
  apply (Math_round_between 0 100);
    change (inject_Z 0) with 0; change (inject_Z 100) with 100; lra.
Qed.

Lemma X10_sleep_score_ranges_witness :
  0 <= Sleep.deepSleepTime short_night
  /\ Forall (valid_start wall_clock_hours wall_clock_minutes)
       [short_night; full_night]
  /\ 0 <= ComputedEnhancedSleepScore.score
            (computeEnhancedSleepScore wall_clock_hours wall_clock_minutes
               short_night [full_night]) <= 100.
Proof.
  assert (Forall (valid_start wall_clock_hours wall_clock_minutes)
            [short_night; full_night]) as Hclock
    by (repeat constructor; discriminate).
  split; [discriminate|]. split; [exact Hclock|].
  destruct (X10_sleep_score_ranges wall_clock_hours wall_clock_minutes
              short_night [full_night])
    as (_ & _ & _ & _ & H & _); try discriminate; [exact Hclock|].
  exact H.
Defined.

Lemma deviation_zero_iff (x total ideal : Q) :
  0 < total -> 0 < ideal ->
  (Math_abs (x / total - ideal) / ideal == 0 <-> x == ideal * total).
Proof.
  intros Ht Hi. unfold Math_abs.
  assert (x / total - ideal == 0 <-> x == ideal * total) as <-.
  { split; intros H.
    - assert (x == (x / total - ideal) * total + ideal * total) as ->
        by (field; lra).
      rewrite H. ring.
    - rewrite H. field. lra. }
  set (y := x / total - ideal). split; intros H.
  - assert (Qabs y == Qabs y / ideal * ideal) as E by (field; lra).
    rewrite H in E.
    pose proof (Qle_Qabs y) as H1.
    pose proof (Qle_Qabs (- y)) as H2. rewrite Qabs_opp in H2.
    lra.
  - rewrite H. reflexivity.
Qed.



(** X12: when the local clock reads an hour from 0 to 23 and a minute
    from 0 to 59, the normalised bedtime hour lies in (12, 36]; a bedtime
    after noon keeps its hour and one up to noon is moved past every
    evening bedtime. *)
Theorem X12_bedtime_hour_normalised
  (getHours getMinutes : string -> Q) (iso : string) :
  0 <= getHours iso <= 23 ->
  0 <= getMinutes iso <= 59 ->
  let h := getHours iso + getMinutes iso / 60 in
  12 < bedtimeHour getHours getMinutes iso <= 36
  /\ (12 < h -> bedtimeHour getHours getMinutes iso == h
               /\ bedtimeHour getHours getMinutes iso < 24)
  /\ (h <= 12 -> bedtimeHour getHours getMinutes iso == h + 24
                /\ 24 <= bedtimeHour getHours getMinutes iso).
Proof.
  intros Hh Hm h. unfold bedtimeHour. fold h.
  assert (0 <= getMinutes iso / 60) as Hm0
    by (apply Qle_shift_div_l; [reflexivity|lra]).
  assert (getMinutes iso / 60 < 1) as Hm1
    by (apply Qlt_shift_div_r; [reflexivity|lra]).
  assert (0 <= h /\ h < 24) as [H0 H24] by (unfold h; lra).
  destruct (leb_cases h 12) as [[-> ?]|[-> ?]];
    repeat split; intros; try lra; reflexivity.
Qed.

Lemma X12_bedtime_hour_normalised_witness :
  0 <= wall_clock_hours "2025-06-02T00:40:00" <= 23
  /\ 0 <= wall_clock_minutes "2025-06-02T00:40:00" <= 59
  /\ 12 < bedtimeHour wall_clock_hours wall_clock_minutes
            "2025-06-02T00:40:00" <= 36.
Proof.
  assert (0 <= wall_clock_hours "2025-06-02T00:40:00" <= 23) as H1
    by (split; discriminate).
  assert (0 <= wall_clock_minutes "2025-06-02T00:40:00" <= 59) as H2
    by (split; discriminate).
  split; [exact H1|]. split; [exact H2|].
  exact (proj1 (X12_bedtime_hour_normalised wall_clock_hours
                  wall_clock_minutes "2025-06-02T00:40:00" H1 H2)).
Defined.

Lemma sleep_median_eq (values : list Q) :
  SleepScore.median values
  = if (length values =? 0)%nat then 0
    else Recovery.median (sort_by numeric_cmp values).
Proof.
  unfold SleepScore.median, Recovery.median.
  destruct (length values =? 0)%nat eqn:E0; [reflexivity|].
  rewrite sort_by_length, E0.
  pose proof (Nat.mod_upper_bound (length values) 2 ltac:(lia)).
  destruct (length values mod 2)%nat as [|[|k]] eqn:Em; cbn; try reflexivity.
  lia.
Qed.

(** X13: the median of the sleep-score engine is 0 for an empty array and
    otherwise a median of the given values, between two of them; the
    order of the input does not matter for being one. *)
Theorem X13_sleep_score_median (values : list Q) :
  match values with
  | [] => SleepScore.median values = 0
  | _ :: _ =>
      is_median (SleepScore.median values) values
      /\ within_values (SleepScore.median values) values
  end.
Proof.
  destruct values as [|x l]; [reflexivity|].
  rewrite sleep_median_eq. cbn [length Nat.eqb].
  apply recovery_median_of_sort. discriminate.
Qed.

End SleepScoreMore.

(** ** VO2 max estimator, continued *)

Module VO2MaxMore.
Import JS JSFacts JSMore VO2Max.
Open Scope Q_scope.

Lemma estimate_value (maxHR restingHR : Q) :
  ComputedVO2Max.vo2max (estimateVO2Max maxHR restingHR)
  = Math_round (15.3 * (maxHR / restingHR) * 10) / 10.
Proof.
  unfold estimateVO2Max. repeat case_match; reflexivity.
Qed.

Lemma ratio_mono (m1 m2 r1 r2 : Q) :
  0 <= m1 -> m1 <= m2 -> 0 < r2 -> r2 <= r1 -> m1 / r1 <= m2 / r2.
Proof.
  intros H0 Hm Hr Hr'.
  apply Qle_shift_div_l; [exact Hr|].
  assert (m1 / r1 * r2 == m1 * r2 / r1) as -> by (field; lra).
  apply Qle_shift_div_r; [lra|]. nra.
Qed.

(** X14: a higher maximum heart rate and a lower (positive) resting heart
    rate never lower the VO2 max estimate nor its percentile. *)
Theorem X14_vo2max_monotone (maxHR1 maxHR2 restingHR1 restingHR2 : Q) :
  0 <= maxHR1 -> maxHR1 <= maxHR2 ->
  0 < restingHR2 -> restingHR2 <= restingHR1 ->
  ComputedVO2Max.vo2max (estimateVO2Max maxHR1 restingHR1)
  <= ComputedVO2Max.vo2max (estimateVO2Max maxHR2 restingHR2)
  /\ ComputedVO2Max.percentile (estimateVO2Max maxHR1 restingHR1)
     <= ComputedVO2Max.percentile (estimateVO2Max maxHR2 restingHR2).
Proof.
  intros H0 Hm Hr Hr'.
  assert (ComputedVO2Max.vo2max (estimateVO2Max maxHR1 restingHR1)
          <= ComputedVO2Max.vo2max (estimateVO2Max maxHR2 restingHR2)) as Hv.
  { rewrite !estimate_value.
    apply Qmult_le_compat_r; [|discriminate].
    apply Math_round_mono.
    pose proof (ratio_mono maxHR1 maxHR2 restingHR1 restingHR2 H0 Hm Hr Hr').
    lra. }
  split; [exact Hv|].
  rewrite !estimate_value in Hv. unfold estimateVO2Max.
  set (v1 := Math_round (15.3 * (maxHR1 / restingHR1) * 10) / 10) in *.
  set (v2 := Math_round (15.3 * (maxHR2 / restingHR2) * 10) / 10) in *.
  repeat match goal with
         | |- context [ltb ?a ?b] =>
             destruct (ltb_cases a b) as [[E ?]|[E ?]]; rewrite E; clear E;
             cbv iota
         end;
    cbn; try discriminate; exfalso; lra.
Qed.

Lemma X14_vo2max_monotone_witness :
  0 <= 180 /\ 180 <= 190 /\ 0 < 50 /\ 50 <= 60
  /\ ComputedVO2Max.vo2max (estimateVO2Max 180 60)
     <= ComputedVO2Max.vo2max (estimateVO2Max 190 50).
Proof.
  repeat (split; [discriminate || reflexivity|]).
  apply (X14_vo2max_monotone 180 190 60 50);
    discriminate || reflexivity.
Defined.

End VO2MaxMore.

(** ** Sleep need engine, continued *)

Module SleepNeedMore.
Import JS JSFacts JSMore SleepNeed RecoverySpec UseComputedStats Samples.
Open Scope Q_scope.

Lemma debt_loop (recommendedMin : Q) (l : list Q) (acc : Q) :
  acc <= fold_left
           (fun totalDebt actual =>
              let deficit := recommendedMin - actual in
              if gtb deficit 0 then totalDebt + deficit else totalDebt)
           l acc
  /\ (fold_left
        (fun totalDebt actual =>
           let deficit := recommendedMin - actual in
           if gtb deficit 0 then totalDebt + deficit else totalDebt)
        l acc == acc
      <-> Forall (fun actual => recommendedMin <= actual) l).
Proof.
  cbv zeta. revert acc.
  induction l as [|a l IH]; intros acc; cbn [fold_left].
  - split; [lra|]. split; [constructor|reflexivity].
  - rewrite Forall_cons.
    destruct (gtb_cases (recommendedMin - a) 0) as [[E ?]|[E ?]]; rewrite E.
    + destruct (IH (acc + (recommendedMin - a))) as [Hle _].
      split; [lra|]. split; [intros; lra|intros [? _]; lra].
    + destruct (IH acc) as [Hle Hiff].
      split; [exact Hle|]. rewrite Hiff.
      split; [intros; split; [lra|done]|tauto].
Qed.

Lemma sleep_debt_facts (recentSleepMinutes : list Q) (recommendedMin : Q) :
  0 <= computeSleepDebt recentSleepMinutes recommendedMin
  /\ (computeSleepDebt recentSleepMinutes recommendedMin == 0
      <-> Forall (fun actual => recommendedMin <= actual) recentSleepMinutes).
Proof.
  apply (debt_loop recommendedMin recentSleepMinutes 0).
Qed.

(** X15: the sleep debt is never negative, and it is 0 exactly when no
    night was shorter than the recommended duration (sleeping longer
    earns no credit). *)
Theorem X15_sleep_debt_nonneg (recentSleepMinutes : list Q) (recommendedMin : Q) :
  0 <= computeSleepDebt recentSleepMinutes recommendedMin
  /\ (computeSleepDebt recentSleepMinutes recommendedMin == 0
      <-> Forall (fun actual => recommendedMin <= actual) recentSleepMinutes).
Proof.
  unfold computeSleepDebt.
  destruct (debt_loop recommendedMin recentSleepMinutes 0) as [Hnn Hzero].
  split; [exact Hnn|exact Hzero].
Qed.

(** X16: the sleep need shown by the statistics hook looks at the last
    14 nights only: older nights do not change it. *)
Theorem X16_sleep_need_last_14
  (todayStrain : option ComputedDailyStrain.t) (older recent : list Sleep.t) :
  length recent = 14%nat ->
  sleepNeed todayStrain (older ++ recent) = sleepNeed todayStrain recent.
Proof.
  intros Hlen. unfold sleepNeed, last14.
  rewrite length_app, Hlen.
  replace (length older + 14 - 14)%nat with (length older) by lia.
  rewrite drop_app_length. reflexivity.
Qed.

Lemma X16_sleep_need_last_14_witness :
  length good_fortnight = 14%nat
  /\ sleepNeed (Some light_day) ([short_night] ++ good_fortnight)
     = sleepNeed (Some light_day) good_fortnight.
Proof.
  split; [reflexivity|].
  apply (X16_sleep_need_last_14 (Some light_day) [short_night] good_fortnight).
  reflexivity.
Defined.


End SleepNeedMore.

(** ** Strain coach *)

Module StrainCoachFacts.
Import JS JSFacts JSMore Recovery StrainCoach UseComputedStats.
Open Scope Q_scope.

(** X18: the strain target is always a band of width 7 inside [0, 21];
    for a recovery computed by [computeDailyRecovery] it is 14-21 from a
    score of 67, 7-14 from 34 to below 67 and 0-7 below 34, and without
    recovery data it is 7-14. *)
Theorem X18_strain_target_bands
  (date : string) (rhrBpm : option Q) (rhrBaseline : Q)
  (sleepNight : option Sleep.t) (priorStrain : option ComputedDailyStrain.t) :
  let r := computeDailyRecovery date rhrBpm rhrBaseline sleepNight priorStrain in
  let t := strainCoach (Some r) in
  (67 <= ComputedRecoveryScore.score r ->
   ComputedStrainCoach.targetMin t = 14
   /\ ComputedStrainCoach.targetMax t = 21
   /\ ComputedStrainCoach.label t = "PUSH HARD")
  /\ (34 <= ComputedRecoveryScore.score r < 67 ->
      ComputedStrainCoach.targetMin t = 7
      /\ ComputedStrainCoach.targetMax t = 14
      /\ ComputedStrainCoach.label t = "MODERATE")
  /\ (ComputedRecoveryScore.score r < 34 ->
      ComputedStrainCoach.targetMin t = 0
      /\ ComputedStrainCoach.targetMax t = 7
      /\ ComputedStrainCoach.label t = "ACTIVE RECOVERY")
  /\ ComputedStrainCoach.targetMin (strainCoach None) = 7
  /\ ComputedStrainCoach.targetMax (strainCoach None) = 14.
Proof.
  intros r t. unfold t, strainCoach, computeStrainTarget, r.
  unfold computeDailyRecovery. cbn [ComputedRecoveryScore.lvl
                                     ComputedRecoveryScore.score].
  set (score := Math_max 0 (Math_min 100 (Math_round _))).
  destruct (geb_cases score 67) as [[-> ?]|[-> ?]];
    [cbn; repeat split; intros; try reflexivity; exfalso; lra|].
  destruct (geb_cases score 34) as [[-> ?]|[-> ?]];
    cbn; repeat split; intros; try reflexivity; exfalso; lra.
Qed.

End StrainCoachFacts.

(** ** Daily indexer, continued *)

Module IndexerMore.
Import JS JSFacts JSMore Indexer IndexerSpec IndexerSpec2 IndexerFacts Samples.
Open Scope Q_scope.

Lemma day_records_snoc d records rec :
  day_records d (records ++ [rec])
  = day_records d records
    ++ (if decide (HeartRateAuto.date rec = d) then [rec] else []).
Proof.
  unfold day_records. rewrite filter_app. reflexivity.
Qed.

Lemma by_day_loop (records : list HeartRateRecord) (d : string) :
  fold_left
    (fun map rec =>
       match map !! HeartRateAuto.date rec with
       | Some existing => <[HeartRateAuto.date rec := existing ++ [rec]]> map
       | None => <[HeartRateAuto.date rec := [rec]]> map
       end)
    records (∅ : gmap string (list HeartRateRecord)) !! d
  = match day_records d records with
    | [] => None
    | l => Some l
    end.
Proof.
  induction records as [|rec records IH] using rev_ind.
  - cbn. apply lookup_empty.
  - rewrite fold_left_app, day_records_snoc. cbn [fold_left].
    set (m := fold_left _ records ∅) in *.
    destruct (decide (HeartRateAuto.date rec = d)) as [<-|Hne].
    + rewrite IH.
      destruct (day_records (HeartRateAuto.date rec) records) as [|r0 l];
        rewrite lookup_insert_eq; reflexivity.
    + rewrite app_nil_r, <- IH.
      destruct (m !! HeartRateAuto.date rec); by rewrite lookup_insert_ne.
Qed.

(** X19: the heart-rate index maps a date to exactly the records of that
    date, in input order, and has no entry for a date without records. *)
Theorem X19_heart_rate_by_day
  (records : list HeartRateRecord) (d : string) :
  buildHeartRateByDay records !! d
  = match day_records d records with
    | [] => None
    | l => Some l
    end.
Proof.
  unfold buildHeartRateByDay.
  destruct (day_records d records) as [|r l] eqn:E;
    rewrite by_day_loop, E; reflexivity.
Qed.

(** One iteration of the first loop keeps the date and the count
    right. *)
Lemma count_inv_step records m rec :
  loop_inv records m ->
  (forall d s, m !! d = Some s -> count_inv d records s) ->
  forall d s,
    summary_step m rec !! d = Some s -> count_inv d (records ++ [rec]) s.
Proof.
  intros Hloop Hcount d s. unfold summary_step.
  destruct (decide (HeartRateAuto.date rec = d)) as [<-|Hne].
  - specialize (Hloop (HeartRateAuto.date rec)).
    specialize (Hcount (HeartRateAuto.date rec)).
    destruct (m !! HeartRateAuto.date rec) as [e|] eqn:He;
      rewrite lookup_insert_eq; intros [= <-]; unfold count_inv;
      cbn [DailyHRSummary.date DailyHRSummary.count];
      rewrite day_rates_snoc, decide_True by done.
    + destruct (Hcount e eq_refl) as (Hd & Hc).
      split; [exact Hd|]. rewrite length_app, Hc. reflexivity.
    + rewrite Hloop. split; reflexivity.
  - assert (summary_step m rec !! d = m !! d) as E.
    { unfold summary_step.
      destruct (m !! HeartRateAuto.date rec); by rewrite lookup_insert_ne. }
    unfold summary_step in E. rewrite E. intros Hs.
    destruct (Hcount d s Hs) as (Hd & Hc).
    unfold count_inv. rewrite day_rates_snoc, decide_False, app_nil_r by done.
    done.
Qed.

Lemma count_inv_fold records d s :
  fold_left summary_step records ∅ !! d = Some s -> count_inv d records s.
Proof.
  revert d s. induction records as [|rec records IH] using rev_ind;
    intros d s.
  - cbn. rewrite lookup_empty. discriminate.
  - rewrite fold_left_app. cbn [fold_left].
    apply count_inv_step; [apply loop_inv_fold|exact IH].
Qed.

(** X20: the summary of a date carries that date, and its [count] is
    the number of samples of the date, which is positive. *)
Theorem X20_summary_count
  (records : list HeartRateRecord) (d : string) (s : DailyHRSummary.t) :
  buildDailyHRSummary records !! d = Some s ->
  DailyHRSummary.date s = d
  /\ DailyHRSummary.count s = length (day_records d records)
  /\ (0 < DailyHRSummary.count s)%nat.
Proof.
  unfold buildDailyHRSummary. rewrite lookup_fmap. intros H.
  destruct (fold_left summary_step records ∅ !! d) as [s0|] eqn:E;
    [|discriminate].
  cbn in H. injection H as <-.
  pose proof (loop_inv_fold records d) as Hinv. rewrite E in Hinv.
  destruct Hinv as [[Hin _] _ _].
  destruct (count_inv_fold records d s0 E) as (Hd & Hc).
  assert (0 < DailyHRSummary.count s0)%nat as Hpos.
  { rewrite Hc. destruct (day_rates d records); [|cbn; lia].
    by apply elem_of_nil in Hin. }
  assert (DailyHRSummary.date (resting_fallback s0) = DailyHRSummary.date s0
          /\ DailyHRSummary.count (resting_fallback s0)
             = DailyHRSummary.count s0)
    as (-> & ->).
  { unfold resting_fallback.
    destruct (is_Infinity (DailyHRSummary.resting s0)); done. }
  split; [exact Hd|].
  split; [rewrite Hc; unfold day_rates, day_records; apply length_fmap|].
  exact Hpos.
Qed.

Lemma X20_summary_count_witness :
  buildDailyHRSummary two_days !! "2025-06-01" = Some first_day_summary
  /\ DailyHRSummary.count first_day_summary
     = length (day_records "2025-06-01" two_days).
Proof.
  assert (buildDailyHRSummary two_days !! "2025-06-01"
          = Some first_day_summary) as H by (vm_compute; reflexivity).
  split; [exact H|].
  exact (proj1 (proj2 (X20_summary_count two_days "2025-06-01"
                         first_day_summary H))).
Defined.

(** X21: the [max] of a date's summary is the greatest heart rate among
    the samples of that date. *)
Theorem X21_summary_max
  (records : list HeartRateRecord) (d : string) (s : DailyHRSummary.t) :
  buildDailyHRSummary records !! d = Some s ->
  is_max_of (DailyHRSummary.max s) (day_rates d records).
Proof.
  intros H. apply buildDailyHRSummary_lookup in H as (s0 & Hinv & ->).
  destruct Hinv as [_ Hmax _]. unfold resting_fallback.
  destruct (is_Infinity (DailyHRSummary.resting s0)); exact Hmax.
Qed.

Lemma X21_summary_max_witness :
  buildDailyHRSummary two_days !! "2025-06-02" = Some second_day_summary
  /\ is_max_of (DailyHRSummary.max second_day_summary)
       (day_rates "2025-06-02" two_days).
Proof.
  assert (buildDailyHRSummary two_days !! "2025-06-02"
          = Some second_day_summary) as H by (vm_compute; reflexivity).
  split; [exact H|].
  exact (X21_summary_max two_days "2025-06-02" second_day_summary H).
Defined.

(** X22: the summary index and the heart-rate index have the same dates:
    exactly the dates that occur in the records. *)
Theorem X22_indexes_same_dates (records : list HeartRateRecord) (d : string) :
  (is_Some (buildDailyHRSummary records !! d)
   <-> is_Some (buildHeartRateByDay records !! d))
  /\ (is_Some (buildHeartRateByDay records !! d)
      <-> exists rec, rec ∈ records /\ HeartRateAuto.date rec = d).
Proof.
  assert (is_Some (buildHeartRateByDay records !! d)
          <-> day_records d records <> []) as Hby.
  { unfold buildHeartRateByDay. rewrite by_day_loop.
    destruct (day_records d records); split; intros H; try done.
    all: by destruct H. }
  assert (day_records d records <> []
          <-> exists rec, rec ∈ records /\ HeartRateAuto.date rec = d) as Hex.
  { unfold day_records. split.
    - intros Hne. destruct (filter _ records) as [|r l] eqn:E; [done|].
      exists r. assert (r ∈ filter (fun r => HeartRateAuto.date r = d) records)
        as Hr by (rewrite E; left).
      apply list_elem_of_filter in Hr as [? ?]. done.
    - intros (rec & Hin & Hd) E.
      assert (rec ∈ filter (fun r => HeartRateAuto.date r = d) records) as Hr
        by (apply list_elem_of_filter; done).
      rewrite E in Hr. by apply elem_of_nil in Hr. }
  split; [|by rewrite Hby].
  rewrite Hby. unfold buildDailyHRSummary. rewrite lookup_fmap.
  pose proof (loop_inv_fold records d) as Hinv.
  assert (day_rates d records = [] <-> day_records d records = []) as Hnil.
  { unfold day_rates, day_records. split; intros E.
    - by apply fmap_nil_inv in E.
    - by rewrite E. }
  destruct (fold_left summary_step records ∅ !! d) as [s0|]; cbn.
  - destruct Hinv as [[Hin _] _ _]. split; [|by eauto].
    intros _ E. apply Hnil in E. rewrite E in Hin.
    by apply elem_of_nil in Hin.
  - split; [by intros [? ?]|]. intros Hne. apply Hnil in Hinv. done.
Qed.

End IndexerMore.

(** ** Rolling average and downsampling *)

Module DataTransforms2Facts.
Import JS JSFacts JSMore JSArray DataTransforms2 IndexerSpec2 IndexerMore
  Samples.
Open Scope Q_scope.

Lemma pick_every_lookup (records : list HeartRateRecord) (step : nat) :
  (1 <= step)%nat ->
  forall fuel i k,
    (length records - i <= fuel)%nat ->
    pick_every fuel records step i !! k = records !! (i + k * step)%nat.
Proof.
  intros Hstep. induction fuel as [|fuel IH]; intros i k Hfuel; cbn.
  - symmetry. rewrite lookup_nil. apply lookup_ge_None_2. lia.
  - destruct (records !! i) as [r|] eqn:Hi.
    + destruct k as [|k]; cbn.
      * rewrite Nat.add_0_r. by rewrite Hi.
      * apply lookup_lt_Some in Hi.
        rewrite IH by lia. f_equal. lia.
    + rewrite lookup_nil. symmetry. apply lookup_ge_None_2.
      apply lookup_ge_None_1 in Hi. lia.
Qed.

Lemma ceil_div_covers (n m : nat) :
  (1 <= m)%nat -> (n <= m * ceil_div n m)%nat.
Proof.
  intros Hm. unfold ceil_div.
  pose proof (Nat.div_mod_eq (n + m - 1) m) as E.
  pose proof (Nat.mod_upper_bound (n + m - 1) m ltac:(lia)) as Hlt.
  lia.
Qed.

Lemma ceil_div_pos (n m : nat) :
  (1 <= m)%nat -> (1 <= n)%nat -> (1 <= ceil_div n m)%nat.
Proof.
  intros Hm Hn. pose proof (ceil_div_covers n m Hm).
  destruct (ceil_div n m); lia.
Qed.

(** X23: for a positive [maxPoints], [downsampleHR] returns at most
    [maxPoints] records, and an array that is already that short is
    returned unchanged. *)
Theorem X23_downsample_bound
  (records : list HeartRateRecord) (maxPoints : nat) :
  (1 <= maxPoints)%nat ->
  (length (downsampleHR records maxPoints) <= maxPoints)%nat
  /\ ((length records <= maxPoints)%nat ->
      downsampleHR records maxPoints = records).
Proof.
  intros Hm. unfold downsampleHR.
  destruct (length records <=? maxPoints)%nat eqn:E.
  - apply Nat.leb_le in E. done.
  - apply Nat.leb_gt in E. split; [|lia].
    destruct maxPoints as [|m]; [lia|].
    set (step := ceil_div (length records) (S m)).
    assert (1 <= step)%nat as Hstep by (apply ceil_div_pos; lia).
    apply lookup_ge_None.
    rewrite (pick_every_lookup records step Hstep) by lia.
    apply lookup_ge_None_2.
    pose proof (ceil_div_covers (length records) (S m) ltac:(lia)).
    fold step in H. lia.
Qed.

Lemma X23_downsample_bound_witness :
  (1 <= 3)%nat /\ (length (downsampleHR two_days 3) <= 3)%nat.
Proof.
  split; [lia|].
  apply (X23_downsample_bound two_days 3). lia.
Defined.

(** X24: when the array is longer than a positive [maxPoints], the
    result consists of every [step]-th record starting with the first,
    where [step] is [ceil(length / maxPoints)]: its entry [k] is the
    input's entry [k * step]. *)
Theorem X24_downsample_every_nth
  (records : list HeartRateRecord) (maxPoints k : nat) :
  (1 <= maxPoints)%nat -> (maxPoints < length records)%nat ->
  downsampleHR records maxPoints !! k
  = records !! (k * ceil_div (length records) maxPoints)%nat.
Proof.
  intros Hm Hlen. unfold downsampleHR.
  destruct (length records <=? maxPoints)%nat eqn:E;
    [apply Nat.leb_le in E; lia|].
  destruct maxPoints as [|m]; [lia|].
  rewrite pick_every_lookup; [reflexivity| |lia].
  apply ceil_div_pos; lia.
Qed.

Lemma X24_downsample_every_nth_witness :
  (1 <= 3)%nat /\ (3 < length two_days)%nat
  /\ downsampleHR two_days 3 !! 1%nat = two_days !! 3%nat.
Proof.
  split; [lia|]. split; [cbn; lia|].
  apply (X24_downsample_every_nth two_days 3 1); cbn; lia.
Defined.

(** The loop of [rollingAverage] pushes one value per iteration. *)
Lemma rolling_loop (data : list PrimFloat.float) (window k : nat) :
  length (snd (fold_left (rolling_step data window) (seq 0 k)
                 (of_count 0, [])))
  = k.
Proof.
  induction k as [|k IH]; [reflexivity|].
  rewrite seq_S, fold_left_app. cbn [fold_left Nat.add].
  unfold rolling_step at 1. cbn [snd].
  rewrite length_app, IH. cbn. lia.
Qed.

(** X25: [rollingAverage] returns an array of the same length as its
    input, whatever the window. *)
Theorem X25_rolling_average_length
  (data : list PrimFloat.float) (window : nat) :
  length (rollingAverage data window) = length data.
Proof.
  unfold rollingAverage.
  destruct (length data =? 0)%nat eqn:E0;
    [apply Nat.eqb_eq in E0; by rewrite E0|].
  destruct (window <=? 1)%nat eqn:E1; [reflexivity|].
  apply rolling_loop.
Qed.

End DataTransforms2Facts.

(** ** Orchestrator, continued *)

Module ComputeScoresMore.
Import JS JSFacts JSMore JSArray MedianFacts ComputeScores Loader Samples
  Indexer IndexerSpec IndexerSpec2 IndexerFacts IndexerMore StrainFacts.
Open Scope Q_scope.

(** A loop over the indices of [xs] that sets the key of each element:
    the keys of the result are the keys of the elements, and each value
    was computed from an element with that key. *)
Lemma index_loop {A V : Type} (xs : list A) (key : A -> string)
  (f : nat -> A -> V) (n : nat) (d : string) :
  (n <= length xs)%nat ->
  let m := fold_left
             (fun acc i =>
                match xs !! i with
                | Some x => <[key x := f i x]> acc
                | None => acc
                end)
             (seq 0 n) (∅ : gmap string V) in
  ((exists i x, (i < n)%nat /\ xs !! i = Some x /\ key x = d)
   -> is_Some (m !! d))
  /\ (forall v, m !! d = Some v ->
        exists i x, (i < n)%nat /\ xs !! i = Some x /\ key x = d
                    /\ v = f i x).
Proof.
  induction n as [|n IH]; intros Hn m.
  - cbn. split.
    + intros (i & x & Hi & _). lia.
    + intros v Hv. unfold m in Hv. cbn in Hv.
      rewrite lookup_empty in Hv. discriminate.
  - unfold m. rewrite seq_S, fold_left_app. cbn [fold_left Nat.add].
    destruct (IH ltac:(lia)) as [IH1 IH2]. clear IH.
    set (m0 := fold_left _ (seq 0 n) ∅) in *.
    destruct (lookup_lt_is_Some_2 xs n ltac:(lia)) as [x Hx]. rewrite Hx.
    destruct (decide (key x = d)) as [<-|Hne].
    + rewrite lookup_insert_eq. split; [by eauto|].
      intros v [= <-]. exists n, x. repeat split; try done. lia.
    + rewrite lookup_insert_ne by done. split.
      * intros (i & y & Hi & Hy & Hk).
        destruct (decide (i = n)) as [->|Hin]; [congruence|].
        apply IH1. exists i, y. repeat split; try done. lia.
      * intros v Hv. destruct (IH2 v Hv) as (i & y & Hi & Hy & Hk & Hf).
        exists i, y. repeat split; try done. lia.
Qed.

Lemma elem_of_keys {V : Type} (m : gmap string V) (d : string) :
  d ∈ (map_to_list m).*1 <-> is_Some (m !! d).
Proof.
  rewrite list_elem_of_fmap. split.
  - intros ([k v] & -> & Hkv). apply elem_of_map_to_list in Hkv. by eauto.
  - intros [v Hv]. exists (d, v). split; [done|].
    by apply elem_of_map_to_list.
Qed.

(** X27: the recovery map has an entry for exactly the dates of the
    heart-rate index; the entry of a date carries that date and a score
    in [0, 100]. *)
Theorem X27_recovery_map
  (getHours getMinutes : string -> Q) (localeCompare : string -> string -> Q)
  (input : ScoreInput) (d : string) :
  let out := computeAllScores getHours getMinutes localeCompare input in
  (is_Some (computedRecovery out !! d)
   <-> is_Some (heartRateByDay input !! d))
  /\ (forall r, computedRecovery out !! d = Some r ->
        ComputedRecoveryScore.date r = d
        /\ 0 <= ComputedRecoveryScore.score r <= 100).
Proof.
  intros out. unfold out, computeAllScores. cbn [computedRecovery].
  set (allDates := sort_by default_cmp (map_to_list (heartRateByDay input)).*1).
  assert (forall k, k ∈ allDates <-> is_Some (heartRateByDay input !! k))
    as Hdates.
  { intros k. unfold allDates. rewrite sort_by_perm. apply elem_of_keys. }
  unfold recovery_pass.
  epose proof (@index_loop string ComputedRecoveryScore.t allDates
                 (fun date => date) _ (length allDates) d (Nat.le_refl _))
    as H.
  cbv zeta in H. destruct H as [H1 H2].
  split; [split|].
  - intros [v Hv]. destruct (H2 v Hv) as (i & x & _ & Hx & <- & _).
    apply Hdates. apply list_elem_of_lookup. by eauto.
  - intros Hs. apply Hdates in Hs. apply list_elem_of_lookup in Hs as [i Hi].
    apply H1. exists i, d. split; [by apply lookup_lt_Some in Hi|done].
  - intros r Hr. destruct (H2 r Hr) as (i & x & _ & _ & <- & ->).
    split; [reflexivity|].
    unfold Recovery.computeDailyRecovery. cbn [ComputedRecoveryScore.score].
    apply clamp_range.
Qed.

Lemma slice_recent {A : Type} (l : list A) (i : nat) :
  (length (slice (Nat.max 0 (i - 14)) i l) <= 14)%nat
  /\ (forall x, x ∈ slice (Nat.max 0 (i - 14)) i l -> x ∈ l).
Proof.
  unfold slice. split.
  - rewrite length_take. lia.
  - intros x Hx. apply elem_of_take in Hx as (j & Hj & _).
    rewrite lookup_drop in Hj. apply list_elem_of_lookup. by eauto.
Qed.

(** X28: the sleep-score map has an entry for exactly the dates of the
    sleep nights; the entry of a date is the score of a night of that
    date, computed against at most 14 nights of the input. *)
Theorem X28_sleep_score_map
  (getHours getMinutes : string -> Q) (localeCompare : string -> string -> Q)
  (input : ScoreInput) (d : string) :
  let out := computeAllScores getHours getMinutes localeCompare input in
  (is_Some (computedSleepScore out !! d)
   <-> exists night, night ∈ sleep input /\ Sleep.date night = d)
  /\ (forall r, computedSleepScore out !! d = Some r ->
        ComputedEnhancedSleepScore.date r = d
        /\ exists night prevNights,
             night ∈ sleep input /\ Sleep.date night = d
             /\ (length prevNights <= 14)%nat
             /\ (forall p, p ∈ prevNights -> p ∈ sleep input)
             /\ r = SleepScore.computeEnhancedSleepScore getHours getMinutes
                      night prevNights).
Proof.
  intros out. unfold out, computeAllScores. cbn [computedSleepScore].
  unfold sleep_pass.
  set (sortedSleep :=
         sort_by (fun a b => localeCompare (Sleep.date a) (Sleep.date b))
                 (sleep input)).
  assert (forall x, x ∈ sortedSleep <-> x ∈ sleep input) as Hperm.
  { intros x. unfold sortedSleep. by rewrite sort_by_perm. }
  epose proof (@index_loop Sleep.t ComputedEnhancedSleepScore.t sortedSleep
                 Sleep.date _ (length sortedSleep) d (Nat.le_refl _)) as H.
  cbv zeta in H. destruct H as [H1 H2].
  assert (forall r,
            fold_left
              (fun computedSleepScore i =>
                 match sortedSleep !! i with
                 | Some night =>
                     <[Sleep.date night :=
                         SleepScore.computeEnhancedSleepScore getHours
                           getMinutes night
                           (slice (Nat.max 0 (i - 14)) i sortedSleep)]>
                       computedSleepScore
                 | None => computedSleepScore
                 end)
              (seq 0 (length sortedSleep))
              (∅ : gmap string ComputedEnhancedSleepScore.t) !! d = Some r ->
            exists i night,
              sortedSleep !! i = Some night /\ Sleep.date night = d
              /\ r = SleepScore.computeEnhancedSleepScore getHours getMinutes
                       night (slice (Nat.max 0 (i - 14)) i sortedSleep)) as H3.
  { intros r Hr. destruct (H2 r Hr) as (i & x & _ & Hx & Hk & ->).
    exists i, x. done. }
  split; [split|].
  - intros [r Hr]. destruct (H3 r Hr) as (i & night & Hi & Hd & _).
    exists night. split; [|exact Hd].
    apply Hperm, list_elem_of_lookup. by eauto.
  - intros (night & Hin & Hd). apply Hperm in Hin.
    apply list_elem_of_lookup in Hin as [i Hi].
    apply H1. exists i, night.
    split; [by apply lookup_lt_Some in Hi|done].
  - intros r Hr. destruct (H3 r Hr) as (i & night & Hi & Hd & ->).
    split; [exact Hd|].
    destruct (slice_recent sortedSleep i) as [Hlen Hsub].
    exists night, (slice (Nat.max 0 (i - 14)) i sortedSleep).
    split; [apply Hperm, list_elem_of_lookup; by eauto|].
    split; [exact Hd|]. split; [exact Hlen|]. split; [|reflexivity].
    intros p Hp. by apply Hperm, Hsub.
Qed.

(** X29: for the input built by the loader, the strain map has an entry
    for exactly the dates that occur in the heart-rate records; the entry
    of a date carries that date, its zone minutes add up to the number of
    samples of the date, and its strain lies in [0, 21]. *)
Theorem X29_loader_strain_map
  (getHours getMinutes : string -> Q) (localeCompare : string -> string -> Q)
  (heartRateAuto : list HeartRateRecord) (parsedSleep : list Sleep.t)
  (d : string) :
  let out := loadAllData_scores getHours getMinutes localeCompare
               heartRateAuto parsedSleep in
  (is_Some (computedStrain out !! d)
   <-> exists rec, rec ∈ heartRateAuto /\ HeartRateAuto.date rec = d)
  /\ (forall s, computedStrain out !! d = Some s ->
        ComputedDailyStrain.date s = d
        /\ (ComputedDailyStrain.rest (ComputedDailyStrain.zoneMinutes s)
            + ComputedDailyStrain.fatBurn (ComputedDailyStrain.zoneMinutes s)
            + ComputedDailyStrain.cardio (ComputedDailyStrain.zoneMinutes s)
            + ComputedDailyStrain.peak (ComputedDailyStrain.zoneMinutes s))%nat
           = length (day_records d heartRateAuto)
        /\ 0 <= ComputedDailyStrain.strain s <= 21).
Proof.
  intros out. unfold out, loadAllData_scores, computeAllScores.
  cbn [computedStrain heartRateByDay]. unfold strain_pass.
  rewrite lookup_fmap. unfold buildHeartRateByDay. rewrite by_day_loop.
  assert (forall r, r ∈ day_records d heartRateAuto
                    <-> r ∈ heartRateAuto /\ HeartRateAuto.date r = d) as Hday.
  { intros r. unfold day_records. rewrite list_elem_of_filter. tauto. }
  destruct (day_records d heartRateAuto) as [|r0 l] eqn:E; cbn [fmap option_fmap option_map].
  - split.
    + split; [by intros [? ?]|]. intros (rec & Hin & Hd).
      assert (rec ∈ []) as Hr by (apply Hday; done).
      by apply elem_of_nil in Hr.
    + intros s Hs. discriminate Hs.
  - assert (r0 ∈ heartRateAuto /\ HeartRateAuto.date r0 = d) as [Hin0 Hd0]
      by (apply Hday; left).
    split.
    + split; [intros _; by exists r0|by eauto].
    + intros s [= <-]. split; [exact Hd0|]. split.
      * apply (computeHRZones_total (r0 :: l) MAX_HR).
      * rewrite strain_of_tenths.
        destruct (strain_tenths_range
                    (ComputedDailyStrain.rawTRIMP
                       (Strain.computeDailyStrain (r0 :: l) MAX_HR)))
          as [Hlo Hhi].
        rewrite Zle_Qle in Hlo, Hhi.
        change (inject_Z 0) with 0 in Hlo.
        change (inject_Z 210) with 210 in Hhi.
        split; [apply Qle_shift_div_l|apply Qle_shift_div_r];
          try reflexivity; lra.
Qed.

Lemma max_loop (l : list DailyHRSummary.t) (acc : Q) :
  0 < fold_left (fun m summary => Math_max m (DailyHRSummary.max summary))
                l acc
  <-> 0 < acc \/ exists s, s ∈ l /\ 0 < DailyHRSummary.max s.
Proof.
  revert acc. induction l as [|s l IH]; intros acc; cbn [fold_left].
  - split; [by left|]. intros [H|(s & Hs & _)]; [exact H|].
    by apply elem_of_nil in Hs.
  - rewrite IH. split.
    + intros [H|(s' & Hs' & Hpos)].
      * destruct (Math_max_spec acc (DailyHRSummary.max s))
          as [[? E]|[? E]]; rewrite E in H.
        -- right. exists s. split; [left|exact H].
        -- by left.
      * right. exists s'. split; [by right|exact Hpos].
    + intros [H|(s' & Hs' & Hpos)].
      * left. pose proof (Math_max_bounds acc (DailyHRSummary.max s)). lra.
      * apply elem_of_cons in Hs' as [->|Hs'].
        -- left. pose proof (Math_max_bounds acc (DailyHRSummary.max s)). lra.
        -- right. by exists s'.
Qed.

Lemma summary_values (records : list HeartRateRecord) (s : DailyHRSummary.t) :
  s ∈ (map_to_list (buildDailyHRSummary records)).*2
  <-> exists d, buildDailyHRSummary records !! d = Some s.
Proof.
  rewrite list_elem_of_fmap. split.
  - intros ([k v] & -> & Hkv). apply elem_of_map_to_list in Hkv. by eauto.
  - intros [d Hd]. exists (d, s). split; [done|].
    by apply elem_of_map_to_list.
Qed.

Lemma summary_of_record (records : list HeartRateRecord)
  (rec : HeartRateRecord) :
  rec ∈ records ->
  exists s,
    buildDailyHRSummary records !! HeartRateAuto.date rec = Some s
    /\ HeartRateAuto.heartRate rec <= DailyHRSummary.max s
    /\ exists r, DailyHRSummary.resting s = Fin r.
Proof.
  intros Hin. set (d := HeartRateAuto.date rec).
  assert (HeartRateAuto.heartRate rec ∈ day_rates d records) as Hrate.
  { unfold day_rates. apply list_elem_of_fmap. exists rec. split; [done|].
    apply list_elem_of_filter. done. }
  pose proof (loop_inv_fold records d) as Hinv.
  unfold buildDailyHRSummary. rewrite lookup_fmap.
  destruct (fold_left summary_step records ∅ !! d) as [s0|].
  - exists (resting_fallback s0). split; [reflexivity|].
    destruct Hinv as [_ [_ Hmax] _]. unfold resting_fallback.
    destruct (DailyHRSummary.resting s0) as [r|] eqn:Hr; cbn.
    + split; [by apply Hmax|]. exists r. exact Hr.
    + split; [by apply Hmax|]. by eexists.
  - rewrite Hinv in Hrate. by apply elem_of_nil in Hrate.
Qed.

(** X30: for the input built by the loader, the VO2 max estimate is
    missing exactly when no heart-rate record has a positive heart rate
    (in particular when there is no record at all). *)
Theorem X30_loader_vo2max_missing
  (getHours getMinutes : string -> Q) (localeCompare : string -> string -> Q)
  (heartRateAuto : list HeartRateRecord) (parsedSleep : list Sleep.t) :
  computedVO2Max
    (loadAllData_scores getHours getMinutes localeCompare heartRateAuto
       parsedSleep) = None
  <-> Forall (fun rec => HeartRateAuto.heartRate rec <= 0) heartRateAuto.
Proof.
  unfold loadAllData_scores, computeAllScores.
  cbn [computedVO2Max dailyHRSummary]. unfold vo2max_pass.
  set (m := buildDailyHRSummary heartRateAuto).
  set (summaries := (map_to_list m).*2).
  pose proof (max_loop summaries 0) as Hmax.
  set (overall := fold_left _ summaries 0) in *.
  rewrite Forall_forall. split.
  - intros Hnone rec Hin.
    destruct (summary_of_record heartRateAuto rec Hin)
      as (s & Hs & Hle & r & Hr).
    fold m in Hs.
    assert (s ∈ summaries) as Hsum by (apply summary_values; by eauto).
    assert (0 < size m)%nat as Hsize.
    { destruct (size m) eqn:E; [|lia].
      apply map_size_empty_iff in E. rewrite E, lookup_empty in Hs.
      discriminate. }
    apply Nat.ltb_lt in Hsize. rewrite Hsize in Hnone.
    assert (0 < length
                  (omap (fun summary =>
                           match DailyHRSummary.resting summary with
                           | Fin r => Some r
                           | Infinity => None
                           end) summaries))%nat as Hrest.
    { assert (r ∈ omap (fun summary =>
                          match DailyHRSummary.resting summary with
                          | Fin r => Some r
                          | Infinity => None
                          end) summaries) as Hr'.
      { apply list_elem_of_omap. exists s. by rewrite Hr. }
      destruct (omap _ summaries); [by apply elem_of_nil in Hr'|cbn; lia]. }
    apply Nat.ltb_lt in Hrest. rewrite Hrest in Hnone. cbn [andb] in Hnone.
    destruct (gtb_cases overall 0) as [[E Hpos]|[E Hnp]]; rewrite E in Hnone;
      [discriminate|].
    destruct (Qlt_le_dec 0 (HeartRateAuto.heartRate rec)) as [Hgt|Hok];
      [|exact Hok].
    exfalso. assert (0 < overall) as Hov; [|lra].
    apply Hmax. right. exists s. split; [exact Hsum|lra].
  - intros Hall.
    destruct (0 <? size m)%nat; [|reflexivity].
    destruct (gtb_cases overall 0) as [[E Hpos]|[E Hnp]]; rewrite E;
      [|by rewrite andb_false_r].
    exfalso. apply Hmax in Hpos as [Hpos|(s & Hs & Hpos)]; [lra|].
    apply summary_values in Hs as [d Hd].
    apply buildDailyHRSummary_lookup in Hd as (s0 & Hinv & ->).
    destruct Hinv as [_ [Hin _] _].
    assert (DailyHRSummary.max (resting_fallback s0) = DailyHRSummary.max s0)
      as Emax.
    { unfold resting_fallback.
      destruct (is_Infinity (DailyHRSummary.resting s0)); reflexivity. }
    rewrite Emax in Hpos.
    unfold day_rates in Hin. apply list_elem_of_fmap in Hin as (rec & E' & Hrec).
    apply list_elem_of_filter in Hrec as [_ Hrec].
    specialize (Hall rec Hrec). rewrite <- E' in Hall. lra.
Qed.

End ComputeScoresMore.
